(** * mantisRssSync: the feed-to-issue reconciliation core

    A shallow embedding of the JavaScript services of the repository
    (src/services/rssService.js, src/services/githubService.js,
    src/services/issueService.js, src/config.js, src/index.js and
    src/utils/logger.js) together with the properties of the reconciliation
    core: feed item normalisation, novelty by trimmed title, sequential
    creation with per-item failure isolation, board attachment and the
    start-up configuration check. *)

From Stdlib Require Import ZArith NArith List Ascii String Decimal Lia Bool.
From stdpp Require Import base decidable option list countable gmap.

Import ListNotations.
#[local] Open Scope list_scope.
#[local] Open Scope Z_scope.

(** ** JavaScript strings

    A JavaScript string is a sequence of UTF-16 code units.  We keep the code
    units as numbers, so that [trim] can be written with the exact set of
    white space and line terminator code points of ECMAScript. *)

Definition jsstring : Type := list N.

Definition lit (s : string) : jsstring :=
  List.map N_of_ascii (list_ascii_of_string s).

(** [WhiteSpace] and [LineTerminator] of ECMAScript: TAB, LF, VT, FF, CR, SP,
    NBSP, U+1680, U+2000..U+200A, LS, PS, U+202F, U+205F, U+3000 and the BOM. *)
Definition isWhiteSpace (c : N) : bool :=
  ((9 <=? c) && (c <=? 13) || (c =? 32) || (c =? 160) || (c =? 5760)
   || (8192 <=? c) && (c <=? 8202) || (c =? 8232) || (c =? 8233)
   || (c =? 8239) || (c =? 8287) || (c =? 12288) || (c =? 65279))%N.

Fixpoint trimStart (s : jsstring) : jsstring :=
  match s with
  | c :: s' => if isWhiteSpace c then trimStart s' else s
  | [] => []
  end.

Definition trimEnd (s : jsstring) : jsstring := rev (trimStart (rev s)).

(** [String.prototype.trim] *)
Definition trim (s : jsstring) : jsstring := trimEnd (trimStart s).

(** [Array.prototype.join] on an array of strings *)
Fixpoint join (sep : jsstring) (l : list jsstring) : jsstring :=
  match l with
  | [] => []
  | [x] => x
  | x :: l' => x ++ sep ++ join sep l'
  end.

(** Decimal digits of a number, as in a template literal [`${n}`]. *)
Fixpoint digits (d : Decimal.uint) : jsstring :=
  match d with
  | Nil => []
  | D0 d => 48%N :: digits d
  | D1 d => 49%N :: digits d
  | D2 d => 50%N :: digits d
  | D3 d => 51%N :: digits d
  | D4 d => 52%N :: digits d
  | D5 d => 53%N :: digits d
  | D6 d => 54%N :: digits d
  | D7 d => 55%N :: digits d
  | D8 d => 56%N :: digits d
  | D9 d => 57%N :: digits d
  end.

Definition nat_toString (n : nat) : jsstring := digits (Nat.to_uint n).

Definition Z_toString (z : Z) : jsstring :=
  match Z.to_int z with
  | Decimal.Pos d => digits d
  | Decimal.Neg d => 45%N :: digits d
  end.

(** ** Values that may be [undefined] or [null]

    A property that holds a string when it is there.  Under [ToBoolean],
    [undefined], [null] and the empty string are falsy, every other string
    is truthy. *)

Inductive value :=
| Undefined
| Null
| Str (s : jsstring).

Definition truthy (v : value) : bool :=
  match v with
  | Str (_ :: _) => true
  | _ => false
  end.

(** [a || b] *)
Definition or_ (a b : value) : value :=
  if truthy a then a else b.

(** [a || 'constant'], which is a string whatever [a] is *)
Definition or_else (a : value) (d : jsstring) : jsstring :=
  match a with
  | Str (c :: s) => c :: s
  | _ => d
  end.

#[global] Instance value_eq_dec : EqDecision value.
Proof. solve_decision. Defined.

(** [`${v}`] *)
Definition toString (v : value) : jsstring :=
  match v with
  | Undefined => lit "undefined"
  | Null => lit "null"
  | Str s => s
  end.

(** ** Records of the data model *)

(** A feed entry as the parser hands it over: every property is optional. *)
Module Entry.
Record t := mk {
  title : value;
  category : value;
  link : value;
  description : value;
  content : value;
  guid : value;
  pubDate : value;
  isoDate : value
}.
End Entry.

(** A normalised feed item, the object literal built in [fetchRSSItems]. *)
Module Item.
Record t := mk {
  title : jsstring;
  category : jsstring;
  link : jsstring;
  description : jsstring;
  guid : value;
  pubDate : value
}.
End Item.

(** An issue of the repository, as the REST API returns it; the program reads
    [number], [title] and [node_id] only. *)
Module Issue.
Record t := mk {
  number : Z;
  title : jsstring;
  node_id : jsstring
}.
End Issue.

(** [projectV2] of the GraphQL answer; the program reads [id] only. *)
Module Project.
Record t := mk { id : jsstring }.
End Project.

(** [addProjectV2ItemById.item] *)
Module ProjectItem.
Record t := mk { id : jsstring }.
End ProjectItem.

(** [config.defaults] *)
Module Defaults.
Record t := mk {
  status : value;
  milestone : value
}.
End Defaults.

(** ** Errors, completions and the trace of a run *)

(** A thrown [Error] object; the program reads its [message] only. *)
Inductive error := Error (message : jsstring).

Definition message (e : error) : jsstring := let 'Error m := e in m.

(** How a call ends: it returns a value or it throws.  For an [async]
    function these are the fulfilment and the rejection of its promise; every
    promise of the program is awaited as soon as it is made. *)
Inductive completion (A : Type) :=
| Returns (a : A)
| Throws (e : error).
Arguments Returns {A} a.
Arguments Throws {A} e.

Inductive level := INFO | ERROR | WARN | DEBUG.

(** The second argument of a [Logger] call. *)
Inductive data :=
| DItem (item : Item.t)
| DError (e : error)
| DConfiguration (rssUrl : value) (repository : jsstring) (project : option Z) (dryRun : bool)
| DSummary (totalRSSItems existingIssues newIssuesFound issuesCreated : nat).

(** A request that leaves the process: the feed parser and the GitHub client. *)
Inductive request :=
| ParseURL (url : value)
| IssuesListForRepo (owner repo : value) (state : jsstring) (per_page : Z)
| IssuesCreate (owner repo : value) (title body : jsstring) (labels : list jsstring)
| IssuesGet (owner repo : value) (issue_number : Z)
| GraphqlProjectV2 (owner : value) (number : option Z)
| GraphqlAddProjectV2ItemById (projectId contentId : jsstring).

(** What a run does, in order.  A call of a method of a service object is
    recorded by its caller as one node that carries the arguments, what
    happened inside the call, and how it ended. *)
#[warnings="-register-all"]
Inductive event :=
| Log (lvl : level) (msg : jsstring) (d : option data)
| Sleep (ms : Z)
| Request (r : request)
| Exit (code : Z)
| CreateIssue (issueData : Item.t) (inner : list event) (r : completion Issue.t)
| AddIssueToProject (issueNumber : Z) (status milestone : value)
    (inner : list event) (r : completion unit)
| GetProject (inner : list event) (r : completion Project.t)
| AddItemToProject (projectId : jsstring) (issueNumber : Z)
    (inner : list event) (r : completion ProjectItem.t)
| UpdateProjectItemStatus (projectId itemId : jsstring) (status : value)
    (inner : list event) (r : completion unit)
| UpdateProjectItemMilestone (projectId itemId : jsstring) (milestone : value)
    (inner : list event) (r : completion unit)
| FetchRSSItems (url : value) (inner : list event) (r : completion (list Item.t))
| GetExistingIssues (inner : list event) (r : completion (list Issue.t))
| FindNewIssues (rssItems : list Item.t) (existingIssues : list Issue.t)
    (inner : list event) (r : completion (list Item.t))
| CreateNewIssues (newIssues : list Item.t) (defaults : Defaults.t) (dryRun : bool)
    (inner : list event) (r : completion (list Issue.t)).

Definition trace : Type := list event.

(** ** The monad of the program: state, trace and exceptions

    A computation starts in a state, ends in a state, appends to the trace
    and either returns or throws.  What was written to the state or to the
    trace before a throw is kept, as in JavaScript. *)

Definition M (S A : Type) : Type := S -> S * trace * completion A.

Section Monad.
Context {S : Type}.

Definition ret {A} (a : A) : M S A := fun s => (s, [], Returns a).

Definition bind {A B} (m : M S A) (f : A -> M S B) : M S B :=
  fun s =>
    match m s with
    | (s1, t1, Returns a) =>
        let '(s2, t2, r) := f a s1 in (s2, t1 ++ t2, r)
    | (s1, t1, Throws e) => (s1, t1, Throws e)
    end.

(** [throw e] *)
Definition throw {A} (e : error) : M S A := fun s => (s, [], Throws e).

(** [try { m } catch (error) { h error }] *)
Definition try_catch {A} (m : M S A) (h : error -> M S A) : M S A :=
  fun s =>
    match m s with
    | (s1, t1, Returns a) => (s1, t1, Returns a)
    | (s1, t1, Throws e) =>
        let '(s2, t2, r) := h e s1 in (s2, t1 ++ t2, r)
    end.

Definition emit (ev : event) : M S unit := fun s => (s, [ev], Returns tt).

(** [await this.obj.method(args)]: the caller records the call as [node]. *)
Definition call {A} (node : trace -> completion A -> event) (m : M S A) : M S A :=
  fun s => let '(s1, t1, r) := m s in (s1, [node t1 r], r).

End Monad.

Declare Scope js_scope.
Delimit Scope js_scope with js.
Notation "x <- m ;; k" := (bind m (fun x => k))
  (at level 100, m at next level, right associativity) : js_scope.
Notation "m ;; k" := (bind m (fun _ => k))
  (at level 100, right associativity) : js_scope.
#[local] Open Scope js_scope.

(** [for (const x of l) { body x }] *)
Fixpoint for_of {S A} (l : list A) (body : A -> M S unit) : M S unit :=
  match l with
  | [] => ret tt
  | x :: l' => body x ;; for_of l' body
  end.

(** A local variable of type [L] beside the state [S]: [with_local init m]
    declares it, [in_outer m] runs a computation that does not see it. *)
Definition with_local {S L A} (init : L) (m : M (S * L) A) : M S A :=
  fun s => let '((s', _), t, r) := m (s, init) in (s', t, r).

Definition in_outer {S L A} (m : M S A) : M (S * L) A :=
  fun sl => let '(s', t, r) := m (fst sl) in ((s', snd sl), t, r).

Definition local {S L} : M (S * L) L := fun sl => (sl, [], Returns (snd sl)).

Definition set_local {S L} (l : L) : M (S * L) unit :=
  fun sl => ((fst sl, l), [], Returns tt).

(** The three components of what a computation did. *)
Definition final {S A} (x : S * trace * completion A) : S := fst (fst x).
Definition events {S A} (x : S * trace * completion A) : trace := snd (fst x).
Definition outcome {S A} (x : S * trace * completion A) : completion A := snd x.

(** ** src/utils/logger.js

    Each method writes one line, [[LEVEL] <time> - message], then the data
    when there is one.  The event keeps the level, the message and the data;
    the time of the line is the clock's.  [debug] writes only when the
    environment's [DEBUG] is ['true']; its event stands for the call. *)
Module Logger.
Definition info {S} (message : jsstring) (d : option data) : M S unit :=
  emit (Log INFO message d).
Definition error {S} (message : jsstring) (d : option data) : M S unit :=
  emit (Log ERROR message d).
Definition warn {S} (message : jsstring) (d : option data) : M S unit :=
  emit (Log WARN message d).
Definition debug {S} (message : jsstring) (d : option data) : M S unit :=
  emit (Log DEBUG message d).
End Logger.

(** ** The collaborators outside the process

    [W] is the state of the world outside: the feed server and GitHub.  A
    request acts on it and returns or throws.  The GraphQL client rejects an
    answer that carries errors, so an answer that is returned has its
    [projectV2] and its [item]. *)

Module Parser.
Record t (W : Type) := mk {
  (* parser.parseURL(url), of which the program reads the items *)
  parseURL : value -> W -> W * completion (list Entry.t)
}.
Arguments parseURL {W} _ _ _.
End Parser.

Module Octokit.
Record t (W : Type) := mk {
  issues_listForRepo :
    value -> value -> jsstring -> Z -> W -> W * completion (list Issue.t);
  issues_create :
    value -> value -> jsstring -> jsstring -> list jsstring ->
    W -> W * completion Issue.t;
  issues_get : value -> value -> Z -> W -> W * completion Issue.t;
  (* graphql(query, { owner, number }) with the query of getProject *)
  graphql_projectV2 : value -> option Z -> W -> W * completion Project.t;
  (* graphql(mutation, { projectId, contentId }) of addItemToProject *)
  graphql_addProjectV2ItemById :
    jsstring -> jsstring -> W -> W * completion ProjectItem.t
}.
Arguments issues_listForRepo {W} _ _ _ _ _ _.
Arguments issues_create {W} _ _ _ _ _ _ _.
Arguments issues_get {W} _ _ _ _ _.
Arguments graphql_projectV2 {W} _ _ _ _.
Arguments graphql_addProjectV2ItemById {W} _ _ _ _.
End Octokit.

(** [await] of a request to a collaborator *)
Definition send {W A} (r : request) (oracle : W -> W * completion A) : M W A :=
  fun w => let '(w', c) := oracle w in (w', [Request r], c).

(** ** src/services/rssService.js *)

Module RSSService.
Section RSSService.
Context {W : Type} (parser : Parser.t W).

(** [item.title?.trim()] *)
Definition optional_trim (v : value) : value :=
  match v with
  | Str s => Str (trim s)
  | _ => Undefined
  end.

(** The arrow function mapped over [feed.items]. *)
Definition normalize (item : Entry.t) : Item.t :=
  {| Item.title := or_else (optional_trim (Entry.title item)) (lit "No Title");
     Item.category := or_else (Entry.category item) (lit "General");
     Item.link := or_else (Entry.link item) (lit "");
     Item.description :=
       or_else (or_ (Entry.description item) (Entry.content item))
               (lit "No description available");
     Item.guid := or_ (or_ (Entry.guid item) (Entry.link item)) (Entry.title item);
     Item.pubDate := or_ (Entry.pubDate item) (Entry.isoDate item) |}.

Definition fetchRSSItems (url : value) : M W (list Item.t) :=
  try_catch
    (Logger.info (lit "Fetching RSS feed from: " ++ toString url) None ;;
     feed_items <- send (ParseURL url) (Parser.parseURL parser url) ;;
     let items := List.map normalize feed_items in
     Logger.info (lit "Found " ++ nat_toString (length items) ++ lit " RSS items") None ;;
     ret items)
    (fun error =>
       Logger.error (lit "Failed to fetch RSS feed") (Some (DError error)) ;;
       throw (Error (lit "RSS fetch failed: " ++ message error))).
End RSSService.
End RSSService.

(** ** src/services/githubService.js *)

Module GitHubService.
(** The fields set by the constructor, beside the client. *)
Record t := mk {
  owner : value;
  repo : value;
  projectNumber : option Z
}.

Section GitHubService.
Context {W : Type} (octokit : Octokit.t W) (this : t).

Definition nl : jsstring := [10%N].

Definition getExistingIssues : M W (list Issue.t) :=
  try_catch
    (Logger.info (lit "Fetching existing issues from repository") None ;;
     issues <- send (IssuesListForRepo (owner this) (repo this)
                       (lit "all") 100)
                    (Octokit.issues_listForRepo octokit (owner this) (repo this)
                       (lit "all") 100) ;;
     Logger.info (lit "Found " ++ nat_toString (length issues)
                    ++ lit " existing issues") None ;;
     ret issues)
    (fun error =>
       Logger.error (lit "Failed to fetch existing issues") (Some (DError error)) ;;
       throw (Error (lit "GitHub API error: " ++ message error))).

Definition formatIssueBody (data : Item.t) : jsstring :=
  lit "## " ++ Item.title data ++ nl
  ++ nl
  ++ lit "**Category:** " ++ Item.category data ++ nl
  ++ lit "**Source:** " ++ Item.link data ++ nl
  ++ nl
  ++ lit "### Description" ++ nl
  ++ Item.description data ++ nl
  ++ nl
  ++ lit "---" ++ nl
  ++ lit "*Auto-generated from RSS feed*".

Definition createIssue (issueData : Item.t) : M W Issue.t :=
  try_catch
    (Logger.info (lit "Creating issue: " ++ Item.title issueData) None ;;
     let body := formatIssueBody issueData in
     let labels :=
       match Item.category issueData with
       | _ :: _ => [Item.category issueData]
       | [] => []
       end in
     issue <- send (IssuesCreate (owner this) (repo this)
                      (Item.title issueData) body labels)
                   (Octokit.issues_create octokit (owner this) (repo this)
                      (Item.title issueData) body labels) ;;
     Logger.info (lit "Created issue #" ++ Z_toString (Issue.number issue)
                    ++ lit ": " ++ Issue.title issue) None ;;
     ret issue)
    (fun error =>
       Logger.error (lit "Failed to create issue: " ++ Item.title issueData)
                    (Some (DError error)) ;;
       throw (Error (lit "Issue creation failed: " ++ message error))).

Definition getProject : M W Project.t :=
  send (GraphqlProjectV2 (owner this) (projectNumber this))
       (Octokit.graphql_projectV2 octokit (owner this) (projectNumber this)).

Definition addItemToProject (projectId : jsstring) (issueNumber : Z)
  : M W ProjectItem.t :=
  issue <- send (IssuesGet (owner this) (repo this) issueNumber)
                (Octokit.issues_get octokit (owner this) (repo this) issueNumber) ;;
  send (GraphqlAddProjectV2ItemById projectId (Issue.node_id issue))
       (Octokit.graphql_addProjectV2ItemById octokit projectId (Issue.node_id issue)).

(** The field update itself is left to be written in the source: the
    method logs and returns. *)
Definition updateProjectItemStatus (projectId itemId : jsstring) (status : value)
  : M W unit :=
  Logger.info (lit "Updating project item status to: " ++ toString status) None.

Definition updateProjectItemMilestone (projectId itemId : jsstring) (milestone : value)
  : M W unit :=
  Logger.info (lit "Updating project item milestone to: " ++ toString milestone) None.

Definition addIssueToProject (issueNumber : Z) (status milestone : value) : M W unit :=
  try_catch
    (Logger.info (lit "Adding issue #" ++ Z_toString issueNumber
                    ++ lit " to project board") None ;;
     project <- call GetProject getProject ;;
     projectItem <- call (AddItemToProject (Project.id project) issueNumber)
                      (addItemToProject (Project.id project) issueNumber) ;;
     (if truthy status
      then call (UpdateProjectItemStatus (Project.id project)
                   (ProjectItem.id projectItem) status)
             (updateProjectItemStatus (Project.id project)
                (ProjectItem.id projectItem) status)
      else ret tt) ;;
     (if truthy milestone
      then call (UpdateProjectItemMilestone (Project.id project)
                   (ProjectItem.id projectItem) milestone)
             (updateProjectItemMilestone (Project.id project)
                (ProjectItem.id projectItem) milestone)
      else ret tt) ;;
     Logger.info (lit "Successfully added issue #" ++ Z_toString issueNumber
                    ++ lit " to project board") None)
    (fun error =>
       Logger.error (lit "Failed to add issue #" ++ Z_toString issueNumber
                       ++ lit " to project") (Some (DError error)) ;;
       throw error).
End GitHubService.
End GitHubService.

(** ** src/services/issueService.js *)

(** What [IssueService] asks of the object it is given as [githubService]:
    the two methods it calls.  The tests pass a mock. *)
Module GitHub.
Record t (W : Type) := mk {
  createIssue : Item.t -> M W Issue.t;
  addIssueToProject : Z -> value -> value -> M W unit
}.
Arguments createIssue {W} _ _.
Arguments addIssueToProject {W} _ _ _ _.

(** The service of src/services/githubService.js is such an object. *)
Definition service {W} (octokit : Octokit.t W) (this : GitHubService.t) : t W :=
  {| createIssue := GitHubService.createIssue octokit this;
     addIssueToProject := GitHubService.addIssueToProject octokit this |}.
End GitHub.

Module IssueService.
Section IssueService.
Context {W : Type} (github : GitHub.t W).

(** [new Set(existingIssues.map(issue => issue.title.trim()))] *)
Definition existingTitles (existingIssues : list Issue.t) : gset jsstring :=
  list_to_set (List.map (fun issue => trim (Issue.title issue)) existingIssues).

(** [existingTitles.has(title)] *)
Definition has (titles : gset jsstring) (title : jsstring) : bool :=
  bool_decide (title ∈ titles).

(** [rssItems.filter(item => !existingTitles.has(item.title.trim()))] *)
Definition notExisting (titles : gset jsstring) (rssItems : list Item.t)
  : list Item.t :=
  List.filter (fun item => negb (has titles (trim (Item.title item)))) rssItems.

Definition findNewIssues (rssItems : list Item.t) (existingIssues : list Issue.t)
  : M W (list Item.t) :=
  Logger.info (lit "Comparing RSS items with existing issues") None ;;
  if (length existingIssues =? 0)%nat then
    Logger.warn
      (lit "No existing issues found. All RSS items will be created as new issues.")
      None ;;
    ret rssItems
  else
    let existingTitles := existingTitles existingIssues in
    let newIssues := notExisting existingTitles rssItems in
    Logger.info (lit "Found " ++ nat_toString (length newIssues)
                   ++ lit " new issues out of " ++ nat_toString (length rssItems)
                   ++ lit " RSS items") None ;;
    ret newIssues.

(** [sleep(ms)]: a promise resolved by a timer after [ms] milliseconds *)
Definition sleep {S} (ms : Z) : M S unit := emit (Sleep ms).

(** [createdIssues.push(issue)] *)
Definition push {S} (issue : Issue.t) : M (S * list Issue.t) unit :=
  createdIssues <- local ;; set_local (createdIssues ++ [issue]).

Definition dry (dryRun : bool) : jsstring :=
  if dryRun then lit "[DRY RUN] " else lit "".

(** The body of the loop of [createNewIssues].  The [continue] of the dry
    run ends the iteration: nothing follows the [try] statement in the
    body, so the rest of the [try] block is the other branch of the test.
    The local variable [createdIssues] lives beside the world, and keeps an
    issue pushed before a throw. *)
Definition iteration (defaults : Defaults.t) (dryRun : bool) (issueData : Item.t)
  : M (W * list Issue.t) unit :=
  try_catch
    (if dryRun then
       Logger.info (lit "[DRY RUN] Would create issue: " ++ Item.title issueData)
                   None ;;
       Logger.debug (lit "[DRY RUN] Issue data:") (Some (DItem issueData))
     else
       issue <- in_outer (call (CreateIssue issueData)
                            (GitHub.createIssue github issueData)) ;;
       push issue ;;
       in_outer (call (AddIssueToProject (Issue.number issue)
                         (Defaults.status defaults) (Defaults.milestone defaults))
                   (GitHub.addIssueToProject github (Issue.number issue)
                      (Defaults.status defaults) (Defaults.milestone defaults))) ;;
       sleep 1000)
    (fun error =>
       Logger.error (lit "Failed to create issue: " ++ Item.title issueData)
                    (Some (DError error))).

Definition createNewIssues (newIssues : list Item.t) (defaults : Defaults.t)
    (dryRun : bool) : M W (list Issue.t) :=
  if (length newIssues =? 0)%nat then
    Logger.info (lit "No new issues to create") None ;;
    ret []
  else
    Logger.info (dry dryRun ++ lit "Creating " ++ nat_toString (length newIssues)
                   ++ lit " new issues") None ;;
    with_local []
      (for_of newIssues (iteration defaults dryRun) ;;
       createdIssues <- local ;;
       Logger.info (dry dryRun ++ lit "Successfully processed "
                      ++ nat_toString (length createdIssues) ++ lit " issues") None ;;
       ret createdIssues).
End IssueService.
End IssueService.

(** ** src/config.js *)

Module Config.
Record t := mk {
  github_token : value;
  github_owner : value;
  github_repo : value;
  github_projectNumber : option Z;
  rss_url : value;
  defaults : Defaults.t;
  dryRun : bool
}.

(** [process.env[key]]: a string, or [undefined] when the variable is not
    set. *)
Definition getenv (env : gmap jsstring jsstring) (key : jsstring) : value :=
  match env !! key with
  | Some s => Str s
  | None => Undefined
  end.

Definition required : list jsstring :=
  [lit "GITHUB_TOKEN"; lit "GITHUB_OWNER"; lit "GITHUB_REPO"; lit "PROJECT_NUMBER";
   lit "MANTIS_RSS_URL"].

(** [required.filter(key => !process.env[key])] *)
Definition missing (env : gmap jsstring jsstring) : list jsstring :=
  List.filter (fun key => negb (truthy (getenv env key))) required.

Section Config.
Context {S : Type}.
(** [parseInt(string, radix)] of the language; [None] is [NaN]. *)
Variable parseInt : value -> Z -> option Z.
(** [process.env] and [process.argv] *)
Variable env : gmap jsstring jsstring.
Variable argv : list jsstring.

Definition validateRequiredEnvVars : M S unit :=
  let missing := missing env in
  if (0 <? length missing)%nat then
    throw (Error (lit "Missing required environment variables: "
                    ++ join (lit ", ") missing))
  else ret tt.

(** The constructor; the module exports [new Config()]. *)
Definition new : M S t :=
  validateRequiredEnvVars ;;
  ret {| github_token := getenv env (lit "GITHUB_TOKEN");
         github_owner := getenv env (lit "GITHUB_OWNER");
         github_repo := getenv env (lit "GITHUB_REPO");
         github_projectNumber := parseInt (getenv env (lit "PROJECT_NUMBER")) 10;
         rss_url := getenv env (lit "MANTIS_RSS_URL");
         defaults :=
           {| Defaults.status :=
                Str (or_else (getenv env (lit "DEFAULT_STATUS")) (lit "Todo"));
              Defaults.milestone := or_ (getenv env (lit "DEFAULT_MILESTONE")) Null |};
         dryRun :=
           bool_decide (getenv env (lit "DRY_RUN") = Str (lit "true"))
           || bool_decide (lit "--dry-run" ∈ argv) |}.
End Config.
End Config.

(** ** src/index.js *)

Module RSSToIssueApp.
Section RSSToIssueApp.
Context {W : Type} (parser : Parser.t W) (octokit : Octokit.t W).

Section WithConfig.
Variable config : Config.t.

(** [new GitHubService(config)] *)
Definition githubService : GitHubService.t :=
  {| GitHubService.owner := Config.github_owner config;
     GitHubService.repo := Config.github_repo config;
     GitHubService.projectNumber := Config.github_projectNumber config |}.

Definition run : M W unit :=
  try_catch
    (Logger.info (lit "Starting RSS to Issue automation "
                    ++ (if Config.dryRun config then lit "(DRY RUN MODE)" else lit ""))
                 None ;;
     Logger.info (lit "Configuration:")
       (Some (DConfiguration (Config.rss_url config)
                (toString (Config.github_owner config) ++ lit "/"
                   ++ toString (Config.github_repo config))
                (Config.github_projectNumber config) (Config.dryRun config))) ;;
     rssItems <- call (FetchRSSItems (Config.rss_url config))
                   (RSSService.fetchRSSItems parser (Config.rss_url config)) ;;
     existingIssues <- call GetExistingIssues
                         (GitHubService.getExistingIssues octokit githubService) ;;
     newIssues <- call (FindNewIssues rssItems existingIssues)
                    (IssueService.findNewIssues rssItems existingIssues) ;;
     createdIssues <-
       call (CreateNewIssues newIssues (Config.defaults config) (Config.dryRun config))
         (IssueService.createNewIssues (GitHub.service octokit githubService)
            newIssues (Config.defaults config) (Config.dryRun config)) ;;
     Logger.info (lit "Automation completed successfully") None ;;
     Logger.info (lit "Summary:")
       (Some (DSummary (length rssItems) (length existingIssues) (length newIssues)
                (length createdIssues))))
    (fun error =>
       Logger.error (lit "Application failed") (Some (DError error)) ;;
       emit (Exit 1)).
End WithConfig.

(** The script run directly: [require('./config')] constructs the
    configuration before anything else of the module is evaluated, then the
    application is constructed and run. *)
Definition main (parseInt : value -> Z -> option Z)
    (env : gmap jsstring jsstring) (argv : list jsstring) : M W unit :=
  config <- Config.new parseInt env argv ;;
  run config.
End RSSToIssueApp.
End RSSToIssueApp.

(** ** The vocabulary of the properties *)

(** The general algorithm of the reconciler in the words of its
    specification, without the short cut: build the set of the titles of the
    existing issues with surrounding white space stripped; a feed item is new
    iff its title, trimmed when it was normalised, is absent from that set. *)
Definition findNew_general (feedItems : list Item.t) (existingIssues : list Issue.t)
  : list Item.t :=
  let stripped : gset jsstring :=
    list_to_set (List.map (fun issue => trim (Issue.title issue)) existingIssues) in
  List.filter (fun item => bool_decide (Item.title item ∉ stripped)) feedItems.

(** The trimmed titles of the existing issues, in their order. *)
Definition trimmedTitles (existingIssues : list Issue.t) : list jsstring :=
  List.map (fun issue => trim (Issue.title issue)) existingIssues.

(** The issues that the calls of [createIssue] recorded in a trace returned,
    and the items these calls were made for. *)
Definition created (tr : trace) : list Issue.t :=
  flat_map (fun ev => match ev with
                      | CreateIssue _ _ (Returns issue) => [issue]
                      | _ => []
                      end) tr.

Definition createCalls (tr : trace) : list Item.t :=
  flat_map (fun ev => match ev with
                      | CreateIssue issueData _ _ => [issueData]
                      | _ => []
                      end) tr.

(** The calls of the gateway recorded in a trace. *)
Definition isGatewayCall (ev : event) : bool :=
  match ev with
  | CreateIssue _ _ _ | AddIssueToProject _ _ _ _ _ => true
  | _ => false
  end.

Definition gatewayCalls (tr : trace) : trace := List.filter isGatewayCall tr.

(** The issues of the items for which both calls returned: those that are
    left when every item with a failed call is omitted. *)
Fixpoint withoutFailures (tr : trace) : list Issue.t :=
  match tr with
  | CreateIssue _ _ (Returns issue) :: tr' =>
      match tr' with
      | AddIssueToProject _ _ _ _ (Returns _) :: _ => issue :: withoutFailures tr'
      | _ => withoutFailures tr'
      end
  | _ :: tr' => withoutFailures tr'
  | [] => []
  end.

(** The mutating steps of a trace, without their arguments. *)
Inductive step := Create | Attach | Pause.

Definition steps (tr : trace) : list step :=
  flat_map (fun ev => match ev with
                      | CreateIssue _ _ _ => [Create]
                      | AddIssueToProject _ _ _ _ _ => [Attach]
                      | Sleep _ => [Pause]
                      | _ => []
                      end) tr.

(** The line logged when an item fails. *)
Definition failure (issueData : Item.t) (e : error) : event :=
  Log ERROR (lit "Failed to create issue: " ++ Item.title issueData) (Some (DError e)).

(** The first and the last line that a batch logs. *)
Definition started (dryRun : bool) (n : nat) : event :=
  Log INFO (IssueService.dry dryRun ++ lit "Creating " ++ nat_toString n
              ++ lit " new issues") None.

Definition processed (dryRun : bool) (n : nat) : event :=
  Log INFO (IssueService.dry dryRun ++ lit "Successfully processed " ++ nat_toString n
              ++ lit " issues") None.

(** The two lines that a dry run logs for an item. *)
Definition wouldCreate (issueData : Item.t) : trace :=
  [Log INFO (lit "[DRY RUN] Would create issue: " ++ Item.title issueData) None;
   Log DEBUG (lit "[DRY RUN] Issue data:") (Some (DItem issueData))].

(** A call of the gateway that threw. *)
Definition threw (ev : event) : bool :=
  match ev with
  | CreateIssue _ _ (Throws _) | AddIssueToProject _ _ _ _ (Throws _) => true
  | _ => false
  end.

Section Sequential.
Context {W : Type} (github : GitHub.t W) (defaults : Defaults.t).

(** [sequential w items w' tr issues]: starting in the world [w], the items
    are processed one after the other, each call of the gateway starting in
    the world that the call before it left; [tr] is what happened and
    [issues] the issues created.  An item is one of: a creation that
    throws; a creation that returns and an attachment that throws; a
    creation and an attachment that return, then the pause. *)
Inductive sequential : W -> list Item.t -> W -> trace -> list Issue.t -> Prop :=
| seq_done w : sequential w [] w [] []
| seq_create_throws w issueData w1 inner e items w' tr issues :
    GitHub.createIssue github issueData w = (w1, inner, Throws e) ->
    sequential w1 items w' tr issues ->
    sequential w (issueData :: items) w'
      (CreateIssue issueData inner (Throws e) :: failure issueData e :: tr)
      issues
| seq_attach_throws w issueData w1 inner issue w2 inner' e items w' tr issues :
    GitHub.createIssue github issueData w = (w1, inner, Returns issue) ->
    GitHub.addIssueToProject github (Issue.number issue)
      (Defaults.status defaults) (Defaults.milestone defaults) w1
    = (w2, inner', Throws e) ->
    sequential w2 items w' tr issues ->
    sequential w (issueData :: items) w'
      (CreateIssue issueData inner (Returns issue)
       :: AddIssueToProject (Issue.number issue) (Defaults.status defaults)
            (Defaults.milestone defaults) inner' (Throws e)
       :: failure issueData e :: tr)
      (issue :: issues)
| seq_both_return w issueData w1 inner issue w2 inner' u items w' tr issues :
    GitHub.createIssue github issueData w = (w1, inner, Returns issue) ->
    GitHub.addIssueToProject github (Issue.number issue)
      (Defaults.status defaults) (Defaults.milestone defaults) w1
    = (w2, inner', Returns u) ->
    sequential w2 items w' tr issues ->
    sequential w (issueData :: items) w'
      (CreateIssue issueData inner (Returns issue)
       :: AddIssueToProject (Issue.number issue) (Defaults.status defaults)
            (Defaults.milestone defaults) inner' (Returns u)
       :: Sleep 1000 :: tr)
      (issue :: issues).
End Sequential.

(** ** Test doubles

    Gateways in the manner of the mocks of tests/services/issueService.test.js.
    The world is the number of the last issue created. *)
Module Mock.
Definition item (title : string) : Item.t :=
  {| Item.title := lit title; Item.category := lit "Bug"; Item.link := lit "";
     Item.description := lit "No description available"; Item.guid := Str (lit title);
     Item.pubDate := Undefined |}.

(** A feed entry with at most a title, a link and a guid. *)
Definition entry (title link guid : value) : Entry.t :=
  Entry.mk title Undefined link Undefined Undefined guid Undefined Undefined.

Definition issue (number : Z) (title : string) : Issue.t :=
  {| Issue.number := number; Issue.title := lit title; Issue.node_id := lit "" |}.

Definition storeError : error := Error (lit "store error").

(** [createIssue] rejects the items titled [refused] and numbers the issues
    of the others; [addIssueToProject] rejects the issue numbered
    [unattachable]. *)
Definition github (refused : jsstring) (unattachable : Z) : GitHub.t Z :=
  {| GitHub.createIssue := fun issueData last =>
       if bool_decide (Item.title issueData = refused)
       then (last, [], Throws storeError)
       else (last + 1, [],
             Returns {| Issue.number := last + 1; Issue.title := Item.title issueData;
                        Issue.node_id := lit "" |});
     GitHub.addIssueToProject := fun issueNumber _ _ last =>
       if bool_decide (issueNumber = unattachable)
       then (last, [], Throws storeError)
       else (last, [], Returns tt) |}.

Definition defaults : Defaults.t :=
  {| Defaults.status := Str (lit "Todo"); Defaults.milestone := Str (lit "v1.0") |}.

(** A client whose every request is answered. *)
Definition octokit : Octokit.t unit :=
  {| Octokit.issues_listForRepo := fun _ _ _ _ w => (w, Returns []);
     Octokit.issues_create := fun _ _ title _ _ w => (w, Returns (issue 1 "created"));
     Octokit.issues_get := fun _ _ n w => (w, Returns (issue n "fetched"));
     Octokit.graphql_projectV2 := fun _ _ w => (w, Returns (Project.mk (lit "PVT_1")));
     Octokit.graphql_addProjectV2ItemById :=
       fun _ _ w => (w, Returns (ProjectItem.mk (lit "PVTI_1"))) |}.

Definition service : GitHubService.t :=
  {| GitHubService.owner := Str (lit "test-owner");
     GitHubService.repo := Str (lit "test-repo");
     GitHubService.projectNumber := Some 1 |}.

(** The feed of tests/integration/app.test.js: one entry. *)
Definition feed : list Entry.t :=
  [Entry.mk (Str (lit "Test Issue")) (Str (lit "Bug")) (Str (lit "https://example.com/issue"))
            (Str (lit "Test description")) Undefined Undefined Undefined Undefined].

Definition parser : Parser.t unit :=
  {| Parser.parseURL := fun _ w => (w, Returns feed) |}.

(** The environment of tests/integration/app.test.js. *)
Definition env : gmap jsstring jsstring :=
  <[lit "GITHUB_TOKEN" := lit "test-token"]>
    (<[lit "GITHUB_OWNER" := lit "test-owner"]>
       (<[lit "GITHUB_REPO" := lit "test-repo"]>
          (<[lit "PROJECT_NUMBER" := lit "1"]>
             (<[lit "MANTIS_RSS_URL" := lit "https://example.com/rss.xml"]>
                (<[lit "DRY_RUN" := lit "true"]> ∅))))).

(** A stand-in for [parseInt] that reads the project number of that
    environment. *)
Definition parseInt (v : value) (radix : Z) : option Z :=
  if bool_decide (v = Str (lit "1")) then Some 1 else None.
End Mock.

(** ** More vocabulary: the requests of a run *)

(** The requests recorded in a trace, those made inside the calls it records
    included, in the order they were sent. *)
Fixpoint requestsOf (ev : event) : list request :=
  match ev with
  | Request r => [r]
  | CreateIssue _ inner _ => flat_map requestsOf inner
  | AddIssueToProject _ _ _ inner _ => flat_map requestsOf inner
  | GetProject inner _ => flat_map requestsOf inner
  | AddItemToProject _ _ inner _ => flat_map requestsOf inner
  | UpdateProjectItemStatus _ _ _ inner _ => flat_map requestsOf inner
  | UpdateProjectItemMilestone _ _ _ inner _ => flat_map requestsOf inner
  | FetchRSSItems _ inner _ => flat_map requestsOf inner
  | GetExistingIssues inner _ => flat_map requestsOf inner
  | FindNewIssues _ _ inner _ => flat_map requestsOf inner
  | CreateNewIssues _ _ _ inner _ => flat_map requestsOf inner
  | Log _ _ _ | Sleep _ | Exit _ => []
  end.

Definition requests (tr : trace) : list request := flat_map requestsOf tr.

(** The requests that change something on GitHub: the creation of an issue
    and the addition of an item to the project. *)
Definition isMutation (r : request) : bool :=
  match r with
  | IssuesCreate _ _ _ _ _ | GraphqlAddProjectV2ItemById _ _ => true
  | _ => false
  end.

Definition isIssuesCreate (r : request) : bool :=
  match r with
  | IssuesCreate _ _ _ _ _ => true
  | _ => false
  end.

(** The arguments of the calls of [addIssueToProject] recorded in a trace. *)
Definition attachCalls (tr : trace) : list (Z * value * value) :=
  flat_map (fun ev => match ev with
                      | AddIssueToProject n st ms _ _ => [(n, st, ms)]
                      | _ => []
                      end) tr.

(** The attachments recorded in a trace that returned, and its pauses. *)
Definition attached (tr : trace) : list Z :=
  flat_map (fun ev => match ev with
                      | AddIssueToProject n _ _ _ (Returns _) => [n]
                      | _ => []
                      end) tr.

Definition pauses (tr : trace) : list Z :=
  flat_map (fun ev => match ev with
                      | Sleep ms => [ms]
                      | _ => []
                      end) tr.

(** The items whose creation threw, by the calls of [createIssue] recorded
    in a trace. *)
Definition refused (tr : trace) : list Item.t :=
  flat_map (fun ev => match ev with
                      | CreateIssue issueData _ (Throws _) => [issueData]
                      | _ => []
                      end) tr.

(** The calls of the two update methods recorded in a trace. *)
Definition statusUpdates (tr : trace) : list value :=
  flat_map (fun ev => match ev with
                      | UpdateProjectItemStatus _ _ v _ _ => [v]
                      | _ => []
                      end) tr.

Definition milestoneUpdates (tr : trace) : list value :=
  flat_map (fun ev => match ev with
                      | UpdateProjectItemMilestone _ _ v _ _ => [v]
                      | _ => []
                      end) tr.

(** The labels that [createIssue] sends for an item. *)
Definition labelsOf (issueData : Item.t) : list jsstring :=
  match Item.category issueData with
  | _ :: _ => [Item.category issueData]
  | [] => []
  end.

(** More test doubles: collaborators that fail. *)
Module Failing.
Definition parser : Parser.t unit :=
  {| Parser.parseURL := fun _ w => (w, Throws (Error (lit "Status code 404"))) |}.

(** A client that answers the reads and rejects the addition to the
    project. *)
Definition octokit : Octokit.t unit :=
  {| Octokit.issues_listForRepo := fun _ _ _ _ w => (w, Returns [Mock.issue 1 "Old"]);
     Octokit.issues_create :=
       fun _ _ title _ _ w =>
         (w, Returns {| Issue.number := 2; Issue.title := title;
                        Issue.node_id := lit "I_2" |});
     Octokit.issues_get := fun _ _ n w => (w, Returns (Mock.issue n "fetched"));
     Octokit.graphql_projectV2 := fun _ _ w => (w, Returns (Project.mk (lit "PVT_1")));
     Octokit.graphql_addProjectV2ItemById :=
       fun _ _ w => (w, Throws (Error (lit "Resource not accessible"))) |}.

(** The configuration of the integration test, outside the dry run. *)
Definition config : Config.t :=
  {| Config.github_token := Str (lit "test-token");
     Config.github_owner := Str (lit "test-owner");
     Config.github_repo := Str (lit "test-repo");
     Config.github_projectNumber := Some 1;
     Config.rss_url := Str (lit "https://example.com/rss.xml");
     Config.defaults := {| Defaults.status := Str (lit "Todo"); Defaults.milestone := Null |};
     Config.dryRun := false |}.
End Failing.

(** The first two lines of a run, and how a failed run ends. *)
Definition preamble (config : Config.t) : trace :=
  [Log INFO (lit "Starting RSS to Issue automation "
               ++ (if Config.dryRun config then lit "(DRY RUN MODE)" else lit "")) None;
   Log INFO (lit "Configuration:")
     (Some (DConfiguration (Config.rss_url config)
              (toString (Config.github_owner config) ++ lit "/"
                 ++ toString (Config.github_repo config))
              (Config.github_projectNumber config) (Config.dryRun config)))].

Definition crash (e : error) : trace :=
  [Log ERROR (lit "Application failed") (Some (DError e)); Exit 1].

(** The configuration that the environment of the integration test gives. *)
Module Fixture.
Definition config : Config.t :=
  {| Config.github_token := Str (lit "test-token");
     Config.github_owner := Str (lit "test-owner");
     Config.github_repo := Str (lit "test-repo");
     Config.github_projectNumber := Some 1;
     Config.rss_url := Str (lit "https://example.com/rss.xml");
     Config.defaults := {| Defaults.status := Str (lit "Todo"); Defaults.milestone := Null |};
     Config.dryRun := true |}.
End Fixture.

(** * Properties *)

(** ** The monad *)

Section MonadFacts.
Context {S A B C : Type}.

Lemma bind_ret_l (a : A) (f : A -> M S B) (s : S) : bind (ret a) f s = f a s.
Proof. unfold bind, ret. now destruct (f a s) as [[s2 t2] r]. Qed.

Lemma bind_ret_r (m : M S A) (s : S) : bind m ret s = m s.
Proof.
  unfold bind, ret. destruct (m s) as [[s1 t1] [a|e]]; [|reflexivity].
  now rewrite app_nil_r.
Qed.

Lemma bind_assoc (m : M S A) (f : A -> M S B) (g : B -> M S C) (s : S) :
  bind (bind m f) g s = bind m (fun a => bind (f a) g) s.
Proof.
  unfold bind. destruct (m s) as [[s1 t1] [a|e]]; [|reflexivity].
  destruct (f a s1) as [[s2 t2] [b|e]]; [|reflexivity].
  destruct (g b s2) as [[s3 t3] r]. now rewrite app_assoc.
Qed.

(** A throw skips what follows and is handled by the nearest [catch], which
    sees the state and the trace as the throw left them. *)
Lemma bind_throw (e : error) (f : A -> M S B) (s : S) :
  bind (throw e) f s = (s, [], Throws e).
Proof. reflexivity. Qed.

Lemma try_catch_throw (m : M S unit) (e : error) (h : error -> M S A) (s : S) :
  try_catch (bind m (fun _ => throw e)) h s
  = match m s with
    | (s1, t1, Returns _) =>
        let '(s2, t2, r) := h e s1 in (s2, t1 ++ t2, r)
    | (s1, t1, Throws e') =>
        let '(s2, t2, r) := h e' s1 in (s2, t1 ++ t2, r)
    end.
Proof.
  unfold try_catch, bind, throw.
  destruct (m s) as [[s1 t1] [u|e']]; [|reflexivity].
  now rewrite app_nil_r.
Qed.

Lemma try_catch_returns (m : M S A) (h : error -> M S A) (s : S) (a : A) :
  outcome (m s) = Returns a -> try_catch m h s = m s.
Proof.
  unfold try_catch, outcome. destruct (m s) as [[s1 t1] [a'|e]]; [reflexivity|].
  discriminate.
Qed.
End MonadFacts.

(** ** Strings *)

Lemma trimStart_no_leading_space (s : jsstring) :
  match trimStart s with
  | c :: _ => isWhiteSpace c = false
  | [] => True
  end.
Proof.
  induction s as [|c s IH]; simpl; [exact I|].
  destruct (isWhiteSpace c) eqn:Hc; [exact IH|exact Hc].
Qed.

Lemma trimStart_idempotent (s : jsstring) : trimStart (trimStart s) = trimStart s.
Proof.
  pose proof (trimStart_no_leading_space s) as H.
  destruct (trimStart s) as [|c t]; [reflexivity|].
  simpl. now rewrite H.
Qed.

Lemma trimEnd_idempotent (s : jsstring) : trimEnd (trimEnd s) = trimEnd s.
Proof.
  unfold trimEnd. now rewrite rev_involutive, trimStart_idempotent.
Qed.

(** Trimming the end of a string that starts with no white space leaves its
    first character in place. *)
Lemma trimStart_app_keep (s t : jsstring) c :
  isWhiteSpace c = false -> trimStart (s ++ [c] ++ t) <> [].
Proof.
  intros Hc. induction s as [|d s IH]; simpl.
  - now rewrite Hc.
  - destruct (isWhiteSpace d); [exact IH|discriminate].
Qed.

Lemma trimStart_suffix (s : jsstring) : exists p, s = p ++ trimStart s.
Proof.
  induction s as [|c s [p Hp]]; simpl.
  - now exists [].
  - destruct (isWhiteSpace c).
    + exists (c :: p). simpl. now f_equal.
    + now exists [].
Qed.

Lemma trimEnd_head (c : N) (s : jsstring) :
  isWhiteSpace c = false -> exists t, trimEnd (c :: s) = c :: t.
Proof.
  intros Hc. unfold trimEnd. simpl.
  destruct (trimStart_suffix (rev s ++ [c])) as [p Hp].
  assert (Hne : trimStart (rev s ++ [c]) <> []).
  { pose proof (trimStart_app_keep (rev s) [] c Hc) as H. now rewrite app_nil_r in H. }
  apply (f_equal (@rev N)) in Hp.
  rewrite rev_app_distr in Hp. simpl in Hp. rewrite rev_involutive in Hp.
  rewrite rev_app_distr in Hp.
  destruct (rev (trimStart (rev s ++ [c]))) as [|d t] eqn:E.
  - exfalso. apply Hne. apply (f_equal (@rev N)) in E.
    now rewrite rev_involutive in E.
  - simpl in Hp. injection Hp as -> _. now exists t.
Qed.

(** [trim] is idempotent: a trimmed title stays as it is. *)
Lemma trim_idempotent (s : jsstring) : trim (trim s) = trim s.
Proof.
  unfold trim.
  pose proof (trimStart_no_leading_space s) as H.
  destruct (trimStart s) as [|c t] eqn:E.
  - reflexivity.
  - destruct (trimEnd_head c t H) as [u Hu]. rewrite Hu.
    simpl. rewrite H. rewrite <- Hu. apply trimEnd_idempotent.
Qed.

Example trim_Foo : trim (lit "  Foo  ") = lit "Foo".
Proof. reflexivity. Qed.

Example trim_line_terminators :
  trim ([9; 160; 65279] ++ lit "a b" ++ [10; 13; 8232])%N = lit "a b".
Proof. reflexivity. Qed.

(** ** Normalisation of a feed entry (src/services/rssService.js) *)

Lemma or_else_nonempty (v : value) (d : jsstring) : d <> [] -> or_else v d <> [].
Proof. destruct v as [| |[|c s]]; simpl; congruence. Qed.

(** C8. The title of a normalised item is never empty: it is the title of
    the entry with surrounding white space trimmed, and ["No Title"] when the
    entry has no title or its title trims to the empty string. *)
Theorem normalize_title (item : Entry.t) :
  Item.title (RSSService.normalize item) <> []
  /\ (forall t, Entry.title item = Str t -> trim t <> [] ->
        Item.title (RSSService.normalize item) = trim t)
  /\ (Entry.title item = Undefined \/ Entry.title item = Null
      \/ (exists t, Entry.title item = Str t /\ trim t = []) ->
      Item.title (RSSService.normalize item) = lit "No Title").
Proof.
  unfold RSSService.normalize; simpl. repeat split.
  - apply or_else_nonempty. discriminate.
  - intros t -> Ht. simpl. destruct (trim t); [contradiction|reflexivity].
  - intros [-> | [-> | [t [-> Ht]]]]; simpl; try reflexivity. now rewrite Ht.
Qed.

Lemma normalize_title_witness :
  Item.title (RSSService.normalize (Mock.entry (Str (lit "  Foo  ")) Undefined Undefined))
  = lit "Foo"
  /\ Item.title (RSSService.normalize (Mock.entry (Str (lit "   ")) Undefined Undefined))
     = lit "No Title".
Proof.
  split.
  - apply (proj1 (proj2 (normalize_title (Mock.entry (Str (lit "  Foo  ")) Undefined Undefined)))
             (lit "  Foo  ")); [reflexivity|].
    vm_compute. discriminate.
  - apply (proj2 (proj2 (normalize_title (Mock.entry (Str (lit "   ")) Undefined Undefined)))).
    right; right. exists (lit "   "). split; reflexivity.
Defined.

(** C6. The guid of a normalised item is the guid of the entry when the
    entry has one, else its link when it has one, else its title, as the
    entry gives it; an entry with a title only has that title as its guid.
    An entry has a property when the property is a non-empty string. *)
Theorem normalize_guid (item : Entry.t) :
  (truthy (Entry.guid item) = true ->
   Item.guid (RSSService.normalize item) = Entry.guid item)
  /\ (truthy (Entry.guid item) = false -> truthy (Entry.link item) = true ->
      Item.guid (RSSService.normalize item) = Entry.link item)
  /\ (truthy (Entry.guid item) = false -> truthy (Entry.link item) = false ->
      Item.guid (RSSService.normalize item) = Entry.title item)
  /\ (forall t,
        item = Entry.mk (Str t) Undefined Undefined Undefined
                        Undefined Undefined Undefined Undefined ->
        Item.guid (RSSService.normalize item) = Str t).
Proof.
  unfold RSSService.normalize, or_; simpl. repeat split.
  - intros Hg. now rewrite !Hg.
  - intros Hg Hl. now rewrite Hg, Hl.
  - intros Hg Hl. now rewrite Hg, Hl.
  - intros t ->. reflexivity.
Qed.

Lemma normalize_guid_witness :
  Item.guid (RSSService.normalize
               (Mock.entry (Str (lit "Test Item")) (Str (lit "https://example.com/1"))
                           (Str (lit "item-1"))))
  = Str (lit "item-1")
  /\ Item.guid (RSSService.normalize
                  (Mock.entry (Str (lit "Test Item")) (Str (lit "https://example.com/1"))
                              Undefined))
     = Str (lit "https://example.com/1")
  /\ Item.guid (RSSService.normalize
                  (Mock.entry (Str (lit "Test Item")) Undefined (Str (lit ""))))
     = Str (lit "Test Item").
Proof.
  split; [|split].
  - exact (proj1 (normalize_guid
                    (Mock.entry (Str (lit "Test Item")) (Str (lit "https://example.com/1"))
                                (Str (lit "item-1")))) eq_refl).
  - exact (proj1 (proj2 (normalize_guid
                           (Mock.entry (Str (lit "Test Item"))
                                       (Str (lit "https://example.com/1")) Undefined)))
             eq_refl eq_refl).
  - exact (proj1 (proj2 (proj2 (normalize_guid
                                  (Mock.entry (Str (lit "Test Item")) Undefined
                                              (Str (lit ""))))))
             eq_refl eq_refl).
Defined.

(** ** Novelty by trimmed title (src/services/issueService.js) *)

Section FindNewIssues.
Context {W : Type}.
Implicit Types (rssItems : list Item.t) (existingIssues : list Issue.t) (w : W).

Lemma has_existingTitles existingIssues (title : jsstring) :
  IssueService.has (IssueService.existingTitles existingIssues) title
  = bool_decide (title ∈ trimmedTitles existingIssues).
Proof.
  unfold IssueService.has, IssueService.existingTitles.
  apply bool_decide_ext. apply elem_of_list_to_set.
Qed.

Lemma notExisting_filter existingIssues rssItems :
  IssueService.notExisting (IssueService.existingTitles existingIssues) rssItems
  = List.filter
      (fun item => bool_decide (trim (Item.title item) ∉ trimmedTitles existingIssues))
      rssItems.
Proof.
  unfold IssueService.notExisting. apply List.filter_ext. intros item.
  rewrite has_existingTitles.
  destruct (decide (trim (Item.title item) ∈ trimmedTitles existingIssues)) as [Hin|Hout].
  - rewrite (bool_decide_eq_true_2 _ Hin). symmetry.
    apply bool_decide_eq_false_2. intros Hn. exact (Hn Hin).
  - rewrite (bool_decide_eq_false_2 _ Hout). symmetry.
    now apply bool_decide_eq_true_2.
Qed.

Lemma findNewIssues_nonempty rssItems existingIssues w :
  existingIssues <> [] ->
  IssueService.findNewIssues rssItems existingIssues w
  = (w,
     [Log INFO (lit "Comparing RSS items with existing issues") None;
      Log INFO
        (lit "Found "
         ++ nat_toString
              (length (IssueService.notExisting
                         (IssueService.existingTitles existingIssues) rssItems))
         ++ lit " new issues out of " ++ nat_toString (length rssItems)
         ++ lit " RSS items") None],
     Returns (IssueService.notExisting
                (IssueService.existingTitles existingIssues) rssItems)).
Proof.
  intros Hne. destruct existingIssues as [|issue rest]; [contradiction|].
  reflexivity.
Qed.

Lemma findNewIssues_empty rssItems w :
  IssueService.findNewIssues rssItems [] w
  = (w,
     [Log INFO (lit "Comparing RSS items with existing issues") None;
      Log WARN
        (lit "No existing issues found. All RSS items will be created as new issues.")
        None],
     Returns rssItems).
Proof. reflexivity. Qed.

(** C2. Against a non-empty list of existing issues, [findNewIssues]
    returns exactly the feed items whose trimmed title is not among the
    trimmed titles of the existing issues, in the order of the feed and
    without merging feed items that share a title: when no feed item
    matches an existing issue the feed items are returned as they are,
    repeated titles included.  An item titled ["  Foo  "] is left out when
    an existing issue is titled ["Foo"]. *)
Theorem findNewIssues_new_items rssItems existingIssues w :
  existingIssues <> [] ->
  outcome (IssueService.findNewIssues rssItems existingIssues w)
  = Returns (List.filter
               (fun item => bool_decide (trim (Item.title item) ∉ trimmedTitles existingIssues))
               rssItems)
  /\ (Forall (fun item => trim (Item.title item) ∉ trimmedTitles existingIssues) rssItems ->
      outcome (IssueService.findNewIssues rssItems existingIssues w) = Returns rssItems)
  /\ (forall item issue newIssues,
        Item.title item = lit "  Foo  " -> Issue.title issue = lit "Foo" ->
        In issue existingIssues ->
        outcome (IssueService.findNewIssues rssItems existingIssues w)
        = Returns newIssues ->
        ~ In item newIssues).
Proof.
  intros Hne. rewrite (findNewIssues_nonempty _ _ _ Hne). unfold outcome; simpl.
  rewrite notExisting_filter. split; [reflexivity|split].
  - intros Hall. f_equal.
    induction Hall as [|item l Hitem Hall IH]; [reflexivity|].
    simpl. now rewrite (bool_decide_eq_true_2 _ Hitem), IH.
  - intros item issue newIssues Hitem Hissue Hin [= <-] Hnew.
    apply List.filter_In in Hnew as [_ Hnew].
    apply bool_decide_eq_true_1 in Hnew. apply Hnew.
    rewrite Hitem, trim_Foo. apply list_elem_of_In.
    apply List.in_map_iff. exists issue. split; [|exact Hin].
    now rewrite Hissue.
Qed.

(** C7. The short cut for an empty list of existing issues returns the
    feed items as they are and leaves the world alone, which is what the
    general algorithm returns against the empty set, both as the source
    writes it and in the words of the specification: with or without the
    short cut, [findNewIssues] returns what its general path computes.  With
    no feed item the result is empty whatever the existing issues are. *)
Theorem findNewIssues_short_cut rssItems existingIssues w :
  outcome (IssueService.findNewIssues rssItems [] w) = Returns rssItems
  /\ IssueService.notExisting (IssueService.existingTitles []) rssItems = rssItems
  /\ findNew_general rssItems [] = rssItems
  /\ final (IssueService.findNewIssues rssItems [] w) = w
  /\ outcome (IssueService.findNewIssues rssItems existingIssues w)
     = Returns (IssueService.notExisting (IssueService.existingTitles existingIssues)
                  rssItems)
  /\ outcome (IssueService.findNewIssues [] existingIssues w) = Returns [].
Proof.
  assert (Hempty :
            IssueService.notExisting (IssueService.existingTitles []) rssItems = rssItems).
  { rewrite notExisting_filter. simpl.
    induction rssItems as [|item l IH]; [reflexivity|]. simpl. now rewrite IH. }
  split; [reflexivity|]. split; [exact Hempty|]. split; [|split; [|split]].
  - clear Hempty. unfold findNew_general. simpl.
    induction rssItems as [|item l IH]; [reflexivity|]. simpl.
    rewrite bool_decide_eq_true_2; [now rewrite IH|]. apply not_elem_of_empty.
  - reflexivity.
  - destruct existingIssues as [|issue rest].
    + rewrite Hempty. reflexivity.
    + reflexivity.
  - destruct existingIssues; reflexivity.
Qed.
End FindNewIssues.

Lemma findNewIssues_new_items_witness :
  outcome (IssueService.findNewIssues
             [Mock.item "Existing Item"; Mock.item "New Item"]
             [Mock.issue 1 "Existing Item"] tt)
  = Returns [Mock.item "New Item"].
Proof.
  refine (eq_trans
            (proj1 (findNewIssues_new_items
                      [Mock.item "Existing Item"; Mock.item "New Item"]
                      [Mock.issue 1 "Existing Item"] tt _)) _).
  - discriminate.
  - reflexivity.
Defined.

(** ** Sequential creation (src/services/issueService.js) *)

Section CreateNewIssues.
Context {W : Type} (github : GitHub.t W) (defaults : Defaults.t).
Implicit Types (w : W) (items : list Item.t) (acc : list Issue.t).

(** What one iteration does, by the outcome of the two calls. *)
Lemma iteration_cases issueData w acc :
  match GitHub.createIssue github issueData w with
  | (w1, inner, Throws e) =>
      IssueService.iteration github defaults false issueData (w, acc)
      = ((w1, acc), [CreateIssue issueData inner (Throws e); failure issueData e],
         Returns tt)
  | (w1, inner, Returns issue) =>
      match GitHub.addIssueToProject github (Issue.number issue)
              (Defaults.status defaults) (Defaults.milestone defaults) w1 with
      | (w2, inner', Throws e) =>
          IssueService.iteration github defaults false issueData (w, acc)
          = ((w2, acc ++ [issue]),
             [CreateIssue issueData inner (Returns issue);
              AddIssueToProject (Issue.number issue) (Defaults.status defaults)
                (Defaults.milestone defaults) inner' (Throws e);
              failure issueData e],
             Returns tt)
      | (w2, inner', Returns u) =>
          IssueService.iteration github defaults false issueData (w, acc)
          = ((w2, acc ++ [issue]),
             [CreateIssue issueData inner (Returns issue);
              AddIssueToProject (Issue.number issue) (Defaults.status defaults)
                (Defaults.milestone defaults) inner' (Returns u);
              Sleep 1000],
             Returns tt)
      end
  end.
Proof.
  unfold IssueService.iteration, try_catch, bind, in_outer, call, IssueService.push,
    local, set_local, IssueService.sleep, Logger.error, emit, failure; simpl.
  destruct (GitHub.createIssue github issueData w) as [[w1 inner] [issue|e]]; simpl;
    [|reflexivity].
  destruct (GitHub.addIssueToProject github (Issue.number issue)
              (Defaults.status defaults) (Defaults.milestone defaults) w1)
    as [[w2 inner'] [u|e]]; simpl; reflexivity.
Qed.

(** The loop follows the sequential protocol, and the local variable gains
    the issues created. *)
Lemma for_of_sequential items : forall w acc,
  exists w' tr issues,
    sequential github defaults w items w' tr issues
    /\ for_of items (IssueService.iteration github defaults false) (w, acc)
       = ((w', acc ++ issues), tr, Returns tt).
Proof.
  induction items as [|issueData items IH]; intros w acc.
  - exists w, [], []. split; [constructor|]. simpl. unfold ret. now rewrite app_nil_r.
  - pose proof (iteration_cases issueData w acc) as Hit.
    destruct (GitHub.createIssue github issueData w) as [[w1 inner] [issue|e]] eqn:Hc.
    + destruct (GitHub.addIssueToProject github (Issue.number issue)
                  (Defaults.status defaults) (Defaults.milestone defaults) w1)
        as [[w2 inner'] [u|e]] eqn:Ha.
      * destruct (IH w2 (acc ++ [issue])) as (w' & tr & issues & Hseq & Hfor).
        eexists w', _, (issue :: issues). split.
        -- eapply seq_both_return; eassumption.
        -- simpl. unfold bind at 1. rewrite Hit, Hfor.
           now rewrite <- app_assoc.
      * destruct (IH w2 (acc ++ [issue])) as (w' & tr & issues & Hseq & Hfor).
        eexists w', _, (issue :: issues). split.
        -- eapply seq_attach_throws; eassumption.
        -- simpl. unfold bind at 1. rewrite Hit, Hfor.
           now rewrite <- app_assoc.
    + destruct (IH w1 acc) as (w' & tr & issues & Hseq & Hfor).
      eexists w', _, issues. split.
      * eapply seq_create_throws; eassumption.
      * simpl. unfold bind at 1. now rewrite Hit, Hfor.
Qed.

Lemma createNewIssues_sequential items w :
  items <> [] ->
  exists w' tr issues,
    sequential github defaults w items w' tr issues
    /\ IssueService.createNewIssues github items defaults false w
       = (w', started false (length items) :: tr ++ [processed false (length issues)],
          Returns issues).
Proof.
  intros Hne.
  destruct (for_of_sequential items w []) as (w' & tr & issues & Hseq & Hfor).
  exists w', tr, issues. split; [exact Hseq|].
  unfold IssueService.createNewIssues.
  destruct items as [|issueData items]; [contradiction|].
  cbn [length Nat.eqb].
  unfold with_local, bind, Logger.info, emit, local, ret.
  rewrite Hfor. reflexivity.
Qed.
End CreateNewIssues.

(** What the sequential protocol says of a trace. *)
Section SequentialFacts.
Context {W : Type} (github : GitHub.t W) (defaults : Defaults.t).
Implicit Types (w : W) (items : list Item.t) (tr : trace) (issues : list Issue.t).

Lemma sequential_created w items w' tr issues :
  sequential github defaults w items w' tr issues -> created tr = issues.
Proof. induction 1; simpl; congruence. Qed.

Lemma sequential_createCalls w items w' tr issues :
  sequential github defaults w items w' tr issues -> createCalls tr = items.
Proof. induction 1; simpl; congruence. Qed.

(** A creation that throws is followed at once by the line of the failure. *)
Lemma sequential_create_throws w items w' tr issues :
  sequential github defaults w items w' tr issues ->
  forall i issueData inner e,
    tr !! i = Some (CreateIssue issueData inner (Throws e)) ->
    tr !! S i = Some (failure issueData e).
Proof.
  induction 1 as [w|w d w1 inn e0 items w' tr issues Hc Hs IH
                 |w d w1 inn issue w2 inn' e0 items w' tr issues Hc Ha Hs IH
                 |w d w1 inn issue w2 inn' u items w' tr issues Hc Ha Hs IH];
    intros i issueData inner e Hi.
  - discriminate.
  - destruct i as [|[|i]]; simpl in *.
    + now injection Hi as -> -> ->.
    + discriminate.
    + eauto.
  - destruct i as [|[|[|i]]]; simpl in *; try discriminate. eauto.
  - destruct i as [|[|[|i]]]; simpl in *; try discriminate. eauto.
Qed.

(** An attachment comes right after the creation that returned the issue it
    attaches, with the status and the milestone of the defaults; that issue
    is among the issues created; and when the attachment throws, the line of
    the failure of the item follows at once. *)
Lemma sequential_attach w items w' tr issues :
  sequential github defaults w items w' tr issues ->
  forall i n st ms inner c,
    tr !! i = Some (AddIssueToProject n st ms inner c) ->
    exists j issueData inner' issue,
      i = S j
      /\ tr !! j = Some (CreateIssue issueData inner' (Returns issue))
      /\ Issue.number issue = n
      /\ st = Defaults.status defaults /\ ms = Defaults.milestone defaults
      /\ In issue issues
      /\ (forall e, c = Throws e -> tr !! S i = Some (failure issueData e))
      /\ (forall u, c = Returns u -> tr !! S i = Some (Sleep 1000)).
Proof.
  induction 1 as [w|w d w1 inn e0 items w' tr issues Hc Hs IH
                 |w d w1 inn issue w2 inn' e0 items w' tr issues Hc Ha Hs IH
                 |w d w1 inn issue w2 inn' u0 items w' tr issues Hc Ha Hs IH];
    intros i n st ms inner c Hi.
  - discriminate.
  - destruct i as [|[|i]]; simpl in *; try discriminate.
    destruct (IH _ _ _ _ _ _ Hi) as (j & d' & inner' & issue' & -> & Hj & Hn & Hst & Hms
                                     & Hin & Hthrow & Hret).
    exists (S (S j)), d', inner', issue'. simpl. repeat split; auto.
  - destruct i as [|[|[|i]]]; simpl in *; try discriminate.
    + injection Hi as <- <- <- <- <-.
      exists 0%nat, d, inn, issue. simpl. repeat split; auto.
      * intros e [= ->]. reflexivity.
      * discriminate.
    + destruct (IH _ _ _ _ _ _ Hi) as (j & d' & inner' & issue' & -> & Hj & Hn & Hst & Hms
                                       & Hin & Hthrow & Hret).
      exists (S (S (S j))), d', inner', issue'. simpl. repeat split; auto.
  - destruct i as [|[|[|i]]]; simpl in *; try discriminate.
    + injection Hi as <- <- <- <- <-.
      exists 0%nat, d, inn, issue. simpl. repeat split; auto.
      discriminate.
    + destruct (IH _ _ _ _ _ _ Hi) as (j & d' & inner' & issue' & -> & Hj & Hn & Hst & Hms
                                       & Hin & Hthrow & Hret).
      exists (S (S (S j))), d', inner', issue'. simpl. repeat split; auto.
Qed.

(** A pause lasts 1000 ms and comes right after an attachment that
    returned. *)
Lemma sequential_pause w items w' tr issues :
  sequential github defaults w items w' tr issues ->
  forall i ms,
    tr !! i = Some (Sleep ms) ->
    ms = 1000
    /\ exists j n st mil inner u,
         i = S j /\ tr !! j = Some (AddIssueToProject n st mil inner (Returns u)).
Proof.
  induction 1 as [w|w d w1 inn e0 items w' tr issues Hc Hs IH
                 |w d w1 inn issue w2 inn' e0 items w' tr issues Hc Ha Hs IH
                 |w d w1 inn issue w2 inn' u0 items w' tr issues Hc Ha Hs IH];
    intros i ms Hi.
  - discriminate.
  - destruct i as [|[|i]]; simpl in *; try discriminate.
    destruct (IH _ _ Hi) as (-> & j & n & st & mil & inner & u & -> & Hj).
    split; [reflexivity|]. exists (S (S j)). simpl. eauto 10.
  - destruct i as [|[|[|i]]]; simpl in *; try discriminate.
    destruct (IH _ _ Hi) as (-> & j & n & st & mil & inner & u & -> & Hj).
    split; [reflexivity|]. exists (S (S (S j))). simpl. eauto 10.
  - destruct i as [|[|[|i]]]; simpl in *; try discriminate.
    + injection Hi as <-. split; [reflexivity|]. exists 1%nat. simpl. eauto 10.
    + destruct (IH _ _ Hi) as (-> & j & n & st & mil & inner & u & -> & Hj).
      split; [reflexivity|]. exists (S (S (S j))). simpl. eauto 10.
Qed.

(** When no call throws, every item is created, attached and followed by the
    pause. *)
Lemma sequential_all_return w items w' tr issues :
  sequential github defaults w items w' tr issues ->
  forallb (fun ev => negb (threw ev)) tr = true ->
  steps tr = flat_map (fun _ => [Create; Attach; Pause]) items
  /\ length issues = length items.
Proof.
  induction 1; simpl; intros Hok; try discriminate.
  - split; reflexivity.
  - destruct (IHsequential Hok) as [-> ->]. split; reflexivity.
Qed.
End SequentialFacts.

(** The trace of a batch is the trace of its loop between two lines of the
    log. *)
Lemma framed_lookup (a b : event) (tr : trace) (i : nat) (ev : event) :
  (a :: tr ++ [b]) !! i = Some ev ->
  (i = 0%nat /\ ev = a) \/ (exists j, i = S j /\ tr !! j = Some ev)
  \/ (i = S (length tr) /\ ev = b).
Proof.
  destruct i as [|j]; simpl.
  - intros [= <-]. now left.
  - intros Hj. right. destruct (decide (j < length tr)%nat) as [Hlt|Hge].
    + left. exists j. split; [reflexivity|]. now rewrite lookup_app_l in Hj.
    + right. rewrite lookup_app_r in Hj by lia.
      destruct (j - length tr)%nat as [|k] eqn:Hk; simpl in Hj; [|discriminate].
      injection Hj as <-. split; [|reflexivity]. f_equal. lia.
Qed.

Lemma framed_lookup_call (a b : event) (tr : trace) (i : nat) (ev : event) :
  steps [a] = [] -> steps [b] = [] -> steps [ev] <> [] ->
  (a :: tr ++ [b]) !! i = Some ev ->
  exists j, i = S j /\ tr !! j = Some ev.
Proof.
  intros Ha Hb Hev Hi.
  destruct (framed_lookup _ _ _ _ _ Hi) as [[_ ->]|[Hj|[_ ->]]]; congruence.
Qed.

Lemma framed_lookup_inner (a b : event) (tr : trace) (j : nat) (ev : event) :
  tr !! j = Some ev -> (a :: tr ++ [b]) !! S j = Some ev.
Proof. intros Hj. simpl. now apply lookup_app_l_Some. Qed.

Section Batch.
Context {W : Type} (github : GitHub.t W) (defaults : Defaults.t).
Implicit Types (w : W) (items : list Item.t) (acc : list Issue.t).

(** The two lines that the dry run logs for an item. *)
Lemma for_of_dry_run items : forall w acc,
  for_of items (IssueService.iteration github defaults true) (w, acc)
  = ((w, acc),
     flat_map (fun issueData => wouldCreate issueData) items,
     Returns tt).
Proof.
  induction items as [|issueData items IH]; intros w acc; [reflexivity|].
  cbn [for_of]. unfold bind at 1.
  change (IssueService.iteration github defaults true issueData (w, acc))
    with ((w, acc), wouldCreate issueData, @Returns unit tt).
  cbn iota. rewrite IH. reflexivity.
Qed.

Lemma gatewayCalls_wouldCreate items :
  gatewayCalls (flat_map (fun issueData => wouldCreate issueData) items ++
                [processed true 0]) = [].
Proof. induction items as [|issueData items IH]; [reflexivity|exact IH]. Qed.

(** C3. In a dry run [createNewIssues] calls neither [createIssue] nor
    [addIssueToProject], whatever the items and the defaults: it leaves the
    world as it is, logs for every item what it would create, and returns the
    empty sequence.  With no item and no dry run it returns the empty
    sequence at once, after one line of log and no call of the gateway. *)
Theorem createNewIssues_dry_run items w :
  outcome (IssueService.createNewIssues github items defaults true w) = Returns []
  /\ final (IssueService.createNewIssues github items defaults true w) = w
  /\ gatewayCalls (events (IssueService.createNewIssues github items defaults true w))
     = []
  /\ events (IssueService.createNewIssues github items defaults true w)
     = match items with
       | [] => [Log INFO (lit "No new issues to create") None]
       | _ :: _ =>
           started true (length items)
           :: flat_map (fun issueData => wouldCreate issueData) items
           ++ [processed true 0]
       end
  /\ IssueService.createNewIssues github [] defaults false w
     = (w, [Log INFO (lit "No new issues to create") None], Returns []).
Proof.
  destruct items as [|issueData items].
  - repeat split; reflexivity.
  - assert (Hrun :
      IssueService.createNewIssues github (issueData :: items) defaults true w
      = (w,
         started true (length (issueData :: items))
         :: flat_map (fun issueData => wouldCreate issueData) (issueData :: items)
         ++ [processed true 0],
         Returns [])).
    { unfold IssueService.createNewIssues. cbn [length Nat.eqb].
      unfold with_local, bind, Logger.info, emit, local, ret.
      rewrite for_of_dry_run. reflexivity. }
    rewrite Hrun. unfold outcome, final, events; cbn [fst snd].
    split; [reflexivity|]. split; [reflexivity|]. split; [|split; reflexivity].
    change (gatewayCalls (flat_map (fun d => wouldCreate d) (issueData :: items)
                          ++ [processed true 0]) = []).
    apply gatewayCalls_wouldCreate.
Qed.
End Batch.


Section NonDryRun.
Context {W : Type} (github : GitHub.t W) (defaults : Defaults.t).
Implicit Types (w : W) (items : list Item.t).

Lemma created_framed (dryRun : bool) (n m : nat) (tr : trace) :
  created (started dryRun n :: tr ++ [processed dryRun m]) = created tr.
Proof.
  unfold created. simpl. rewrite flat_map_app. simpl. apply app_nil_r.
Qed.

Lemma createCalls_framed (dryRun : bool) (n m : nat) (tr : trace) :
  createCalls (started dryRun n :: tr ++ [processed dryRun m]) = createCalls tr.
Proof.
  unfold createCalls. simpl. rewrite flat_map_app. simpl. apply app_nil_r.
Qed.

Lemma steps_framed (dryRun : bool) (n m : nat) (tr : trace) :
  steps (started dryRun n :: tr ++ [processed dryRun m]) = steps tr.
Proof.
  unfold steps. simpl. rewrite flat_map_app. simpl. apply app_nil_r.
Qed.

(** C5. Outside the dry run, the issue that a creation returns is in the
    returned sequence whatever the attachment that follows does: the
    sequence is made of the issues that the calls of [createIssue] returned,
    and an attachment, also one that throws, comes right after the creation
    that returned the issue it attaches, which is in the sequence.
    Conversely no attachment follows a creation that throws: the line of the
    failure comes next. *)
Theorem createNewIssues_pushes_before_attach items w :
  outcome (IssueService.createNewIssues github items defaults false w)
  = Returns (created (events (IssueService.createNewIssues github items defaults false w)))
  /\ (forall i n st ms inner c,
        events (IssueService.createNewIssues github items defaults false w) !! i
        = Some (AddIssueToProject n st ms inner c) ->
        exists j issueData inner' issue,
          i = S j
          /\ events (IssueService.createNewIssues github items defaults false w) !! j
             = Some (CreateIssue issueData inner' (Returns issue))
          /\ Issue.number issue = n
          /\ In issue (created (events (IssueService.createNewIssues
                                          github items defaults false w))))
  /\ (forall i issueData inner e,
        events (IssueService.createNewIssues github items defaults false w) !! i
        = Some (CreateIssue issueData inner (Throws e)) ->
        events (IssueService.createNewIssues github items defaults false w) !! S i
        = Some (failure issueData e)).
Proof.
  destruct items as [|issueData0 items0] eqn:Hitems.
  - split; [reflexivity|]. split.
    + intros [|i] n st ms inner c Hi; discriminate.
    + intros [|i] d inner e Hi; discriminate.
  - rewrite <- Hitems.
    destruct (createNewIssues_sequential github defaults items w)
      as (w' & tr & issues & Hseq & Hrun); [subst; discriminate|].
    rewrite Hrun. unfold outcome, events; cbn [fst snd].
    rewrite created_framed, (sequential_created _ _ _ _ _ _ _ Hseq).
    split; [reflexivity|]. split.
    + intros i n st ms inner c Hi.
      apply framed_lookup_call in Hi as [k [-> Hk]]; [|reflexivity|reflexivity|discriminate].
      destruct (sequential_attach _ _ _ _ _ _ _ Hseq _ _ _ _ _ _ Hk)
        as (j & d & inner' & issue & -> & Hj & Hn & _ & _ & Hin & _).
      exists (S j), d, inner', issue. repeat split; auto.
      now apply framed_lookup_inner.
    + intros i d inner e Hi.
      apply framed_lookup_call in Hi as [k [-> Hk]]; [|reflexivity|reflexivity|discriminate].
      apply framed_lookup_inner.
      exact (sequential_create_throws _ _ _ _ _ _ _ Hseq _ _ _ _ Hk).
Qed.
(** C1, as amended. Outside the dry run [createNewIssues] never throws. Every
    item is tried, in the order of the batch, whatever happened to the items
    before it; a call of the gateway that throws is followed at once by the
    line that logs the failure of its item.  The returned sequence is made
    of the issues whose creation returned, in the order they were created:
    an item whose creation throws adds nothing to it, and an item whose
    attachment throws is in it all the same. *)
Theorem createNewIssues_isolates_failures items w :
  outcome (IssueService.createNewIssues github items defaults false w)
  = Returns (created (events (IssueService.createNewIssues github items defaults false w)))
  /\ createCalls (events (IssueService.createNewIssues github items defaults false w))
     = items
  /\ (forall i issueData inner e,
        events (IssueService.createNewIssues github items defaults false w) !! i
        = Some (CreateIssue issueData inner (Throws e)) ->
        events (IssueService.createNewIssues github items defaults false w) !! S i
        = Some (failure issueData e))
  /\ (forall i n st ms inner e,
        events (IssueService.createNewIssues github items defaults false w) !! i
        = Some (AddIssueToProject n st ms inner (Throws e)) ->
        exists j issueData inner' issue,
          i = S j
          /\ events (IssueService.createNewIssues github items defaults false w) !! j
             = Some (CreateIssue issueData inner' (Returns issue))
          /\ events (IssueService.createNewIssues github items defaults false w) !! S i
             = Some (failure issueData e)
          /\ In issue (created (events (IssueService.createNewIssues
                                          github items defaults false w)))).
Proof.
  destruct items as [|issueData0 items0] eqn:Hitems.
  - split; [reflexivity|]. split; [reflexivity|]. split.
    + intros [|i] d inner e Hi; discriminate.
    + intros [|i] n st ms inner e Hi; discriminate.
  - rewrite <- Hitems.
    destruct (createNewIssues_sequential github defaults items w)
      as (w' & tr & issues & Hseq & Hrun); [subst; discriminate|].
    rewrite Hrun. unfold outcome, events; cbn [fst snd].
    rewrite created_framed, createCalls_framed,
      (sequential_created _ _ _ _ _ _ _ Hseq),
      (sequential_createCalls _ _ _ _ _ _ _ Hseq).
    split; [reflexivity|]. split; [reflexivity|]. split.
    + intros i d inner e Hi.
      apply framed_lookup_call in Hi as [k [-> Hk]]; [|reflexivity|reflexivity|discriminate].
      apply framed_lookup_inner.
      exact (sequential_create_throws _ _ _ _ _ _ _ Hseq _ _ _ _ Hk).
    + intros i n st ms inner e Hi.
      apply framed_lookup_call in Hi as [k [-> Hk]]; [|reflexivity|reflexivity|discriminate].
      destruct (sequential_attach _ _ _ _ _ _ _ Hseq _ _ _ _ _ _ Hk)
        as (j & d & inner' & issue & -> & Hj & _ & _ & _ & Hin & Hthrow & _).
      exists (S j), d, inner', issue. repeat split; auto.
      * now apply framed_lookup_inner.
      * apply framed_lookup_inner. now apply Hthrow.
Qed.

(** C4, as amended. Outside the dry run the items are processed one after
    the other in the order of the batch, each call of the gateway starting
    in the world that the call before it left.  For an item, [createIssue]
    is called; if it returns, [addIssueToProject] is called with the number
    of the issue and the status and the milestone of the defaults; if that
    returns too, the batch pauses for 1000 ms before the next item.  A call
    that throws ends the processing of its item.  When no call throws, every
    item is created, then attached, then followed by the pause. *)
Theorem createNewIssues_strictly_sequential items w :
  items <> [] ->
  exists w' tr issues,
    sequential github defaults w items w' tr issues
    /\ IssueService.createNewIssues github items defaults false w
       = (w',
          started false (length items) :: tr ++ [processed false (length issues)],
          Returns issues)
    /\ createCalls tr = items
    /\ (forallb (fun ev => negb (threw ev)) tr = true ->
        steps tr = flat_map (fun _ => [Create; Attach; Pause]) items)
    /\ (forall i n st ms inner c,
          tr !! i = Some (AddIssueToProject n st ms inner c) ->
          st = Defaults.status defaults /\ ms = Defaults.milestone defaults
          /\ exists j issueData inner' issue,
               i = S j /\ tr !! j = Some (CreateIssue issueData inner' (Returns issue))
               /\ Issue.number issue = n)
    /\ (forall i ms,
          tr !! i = Some (Sleep ms) ->
          ms = 1000
          /\ exists j n st mil inner u,
               i = S j /\ tr !! j = Some (AddIssueToProject n st mil inner (Returns u))).
Proof.
  intros Hne.
  destruct (createNewIssues_sequential github defaults items w Hne)
    as (w' & tr & issues & Hseq & Hrun).
  exists w', tr, issues. split; [exact Hseq|]. split; [exact Hrun|].
  split; [exact (sequential_createCalls _ _ _ _ _ _ _ Hseq)|]. split; [|split].
  - intros Hok. exact (proj1 (sequential_all_return _ _ _ _ _ _ _ Hseq Hok)).
  - intros i n st ms inner c Hi.
    destruct (sequential_attach _ _ _ _ _ _ _ Hseq _ _ _ _ _ _ Hi)
      as (j & d & inner' & issue & -> & Hj & Hn & Hst & Hms & _).
    split; [exact Hst|]. split; [exact Hms|]. exists j, d, inner', issue. auto.
  - exact (sequential_pause _ _ _ _ _ _ _ Hseq).
Qed.
End NonDryRun.

(** The scenario of the specification: of two items, the creation of the
    second is refused by the store. *)
Lemma createNewIssues_isolates_failures_witness :
  events (IssueService.createNewIssues (Mock.github (lit "Test Item 2") 0)
            [Mock.item "Test Item 1"; Mock.item "Test Item 2"] Mock.defaults false 0)
    !! 5%nat
  = Some (failure (Mock.item "Test Item 2") Mock.storeError)
  /\ outcome (IssueService.createNewIssues (Mock.github (lit "Test Item 2") 0)
                [Mock.item "Test Item 1"; Mock.item "Test Item 2"] Mock.defaults false 0)
     = Returns [Mock.issue 1 "Test Item 1"].
Proof.
  split.
  - apply (proj1 (proj2 (proj2 (createNewIssues_isolates_failures
                                  (Mock.github (lit "Test Item 2") 0) Mock.defaults
                                  [Mock.item "Test Item 1"; Mock.item "Test Item 2"] 0)))
             4%nat (Mock.item "Test Item 2") [] Mock.storeError).
    reflexivity.
  - exact (proj1 (createNewIssues_isolates_failures
                    (Mock.github (lit "Test Item 2") 0) Mock.defaults
                    [Mock.item "Test Item 1"; Mock.item "Test Item 2"] 0)).
Defined.

(** C1 as it is stated fails: the attachment of the first of two items
    throws, and the issue of that item is returned all the same, where the
    claim has the failed item omitted. *)
Lemma createNewIssues_returns_unattached_issue :
  events (IssueService.createNewIssues (Mock.github (lit "") 1)
            [Mock.item "Test Item 1"; Mock.item "Test Item 2"] Mock.defaults false 0)
    !! 2%nat
  = Some (AddIssueToProject 1 (Str (lit "Todo")) (Str (lit "v1.0")) []
            (Throws Mock.storeError))
  /\ outcome (IssueService.createNewIssues (Mock.github (lit "") 1)
                [Mock.item "Test Item 1"; Mock.item "Test Item 2"] Mock.defaults false 0)
     = Returns [Mock.issue 1 "Test Item 1"; Mock.issue 2 "Test Item 2"]
  /\ withoutFailures
       (events (IssueService.createNewIssues (Mock.github (lit "") 1)
                  [Mock.item "Test Item 1"; Mock.item "Test Item 2"] Mock.defaults false 0))
     = [Mock.issue 2 "Test Item 2"]
  /\ outcome (IssueService.createNewIssues (Mock.github (lit "") 1)
                [Mock.item "Test Item 1"; Mock.item "Test Item 2"] Mock.defaults false 0)
     <> Returns
          (withoutFailures
             (events (IssueService.createNewIssues (Mock.github (lit "") 1)
                        [Mock.item "Test Item 1"; Mock.item "Test Item 2"]
                        Mock.defaults false 0))).
Proof.
  split; [reflexivity|]. split; [reflexivity|]. split; [reflexivity|].
  vm_compute. discriminate.
Qed.

Lemma createNewIssues_strictly_sequential_witness :
  exists w' tr issues,
    sequential (Mock.github (lit "") 0) Mock.defaults 0
      [Mock.item "Test Item 1"; Mock.item "Test Item 2"] w' tr issues
    /\ IssueService.createNewIssues (Mock.github (lit "") 0)
         [Mock.item "Test Item 1"; Mock.item "Test Item 2"] Mock.defaults false 0
       = (w', started false 2 :: tr ++ [processed false (length issues)], Returns issues)
    /\ createCalls tr = [Mock.item "Test Item 1"; Mock.item "Test Item 2"].
Proof.
  destruct (createNewIssues_strictly_sequential (Mock.github (lit "") 0) Mock.defaults
              [Mock.item "Test Item 1"; Mock.item "Test Item 2"] 0)
    as (w' & tr & issues & Hseq & Hrun & Hcalls & _); [discriminate|].
  exists w', tr, issues. split; [exact Hseq|]. split; [exact Hrun|exact Hcalls].
Defined.

(** C4 as it is stated fails: the creation of the first of two items throws,
    and the second item is created next, with no attachment and no pause in
    between. *)
Lemma createNewIssues_no_pause_after_failure :
  steps (events (IssueService.createNewIssues (Mock.github (lit "Test Item 1") 0)
                   [Mock.item "Test Item 1"; Mock.item "Test Item 2"] Mock.defaults
                   false 0))
  = [Create; Create; Attach; Pause]
  /\ steps (events (IssueService.createNewIssues (Mock.github (lit "Test Item 1") 0)
                      [Mock.item "Test Item 1"; Mock.item "Test Item 2"] Mock.defaults
                      false 0))
     <> flat_map (fun _ => [Create; Attach; Pause])
                 [Mock.item "Test Item 1"; Mock.item "Test Item 2"].
Proof.
  split; [reflexivity|]. vm_compute. discriminate.
Qed.

Lemma createNewIssues_pushes_before_attach_witness :
  exists j issueData inner' issue,
    2%nat = S j
    /\ events (IssueService.createNewIssues (Mock.github (lit "") 1)
                 [Mock.item "Test Item 1"; Mock.item "Test Item 2"] Mock.defaults false 0)
         !! j
       = Some (CreateIssue issueData inner' (Returns issue))
    /\ Issue.number issue = 1
    /\ In issue
         (created (events (IssueService.createNewIssues (Mock.github (lit "") 1)
                             [Mock.item "Test Item 1"; Mock.item "Test Item 2"]
                             Mock.defaults false 0))).
Proof.
  apply (proj1 (proj2 (createNewIssues_pushes_before_attach
                         (Mock.github (lit "") 1) Mock.defaults
                         [Mock.item "Test Item 1"; Mock.item "Test Item 2"] 0))
           2%nat 1 (Str (lit "Todo")) (Str (lit "v1.0")) [] (Throws Mock.storeError)).
  reflexivity.
Defined.

(** ** Attaching an issue to the board (src/services/githubService.js) *)

(** Case analysis on the answer to the next request. *)
Ltac answer :=
  match goal with
  | |- context [Octokit.graphql_projectV2 ?o ?a ?b ?w] =>
      destruct (Octokit.graphql_projectV2 o a b w) as [? [?|?]]
  | |- context [Octokit.issues_get ?o ?a ?b ?c ?w] =>
      destruct (Octokit.issues_get o a b c w) as [? [?|?]]
  | |- context [Octokit.graphql_addProjectV2ItemById ?o ?a ?b ?w] =>
      destruct (Octokit.graphql_addProjectV2ItemById o a b w) as [? [?|?]]
  end;
  cbn -[lit Z_toString].

Section AddIssueToProject.
Context {W : Type} (octokit : Octokit.t W) (this : GitHubService.t).

(** C9. Whatever the issue number, the status and the milestone,
    [addIssueToProject] calls [updateProjectItemStatus] only with the status
    it was given and only if that status is neither [null] nor [undefined]
    (nor the empty string), and [updateProjectItemMilestone] only with the
    milestone it was given and only if that milestone is neither [null] nor
    [undefined]; with a [null] status or milestone the corresponding update
    is not called. *)
Theorem addIssueToProject_updates (issueNumber : Z) (status milestone : value) (w : W) :
  (forall projectId itemId v inner c,
      In (UpdateProjectItemStatus projectId itemId v inner c)
         (events (GitHubService.addIssueToProject octokit this issueNumber
                    status milestone w)) ->
      v = status /\ status <> Null /\ status <> Undefined /\ truthy status = true)
  /\ (forall projectId itemId v inner c,
        In (UpdateProjectItemMilestone projectId itemId v inner c)
           (events (GitHubService.addIssueToProject octokit this issueNumber
                      status milestone w)) ->
        v = milestone /\ milestone <> Null /\ milestone <> Undefined
        /\ truthy milestone = true)
  /\ (status = Null ->
      forall projectId itemId v inner c,
        ~ In (UpdateProjectItemStatus projectId itemId v inner c)
             (events (GitHubService.addIssueToProject octokit this issueNumber
                        status milestone w)))
  /\ (milestone = Null ->
      forall projectId itemId v inner c,
        ~ In (UpdateProjectItemMilestone projectId itemId v inner c)
             (events (GitHubService.addIssueToProject octokit this issueNumber
                        status milestone w))).
Proof.
  assert (Hstatus : forall projectId itemId v inner c,
      In (UpdateProjectItemStatus projectId itemId v inner c)
         (events (GitHubService.addIssueToProject octokit this issueNumber
                    status milestone w)) ->
      v = status /\ truthy status = true).
  { intros projectId itemId v inner c.
    unfold GitHubService.addIssueToProject, GitHubService.getProject,
      GitHubService.addItemToProject, GitHubService.updateProjectItemStatus,
      GitHubService.updateProjectItemMilestone, Logger.info, Logger.error,
      try_catch, bind, call, send, emit, throw, ret, events.
    do 3 (answer; [|intuition discriminate]).
    destruct (truthy status) eqn:Hs, (truthy milestone) eqn:Hm;
      cbn -[lit Z_toString]; intuition (try discriminate); congruence. }
  assert (Hmilestone : forall projectId itemId v inner c,
      In (UpdateProjectItemMilestone projectId itemId v inner c)
         (events (GitHubService.addIssueToProject octokit this issueNumber
                    status milestone w)) ->
      v = milestone /\ truthy milestone = true).
  { intros projectId itemId v inner c.
    unfold GitHubService.addIssueToProject, GitHubService.getProject,
      GitHubService.addItemToProject, GitHubService.updateProjectItemStatus,
      GitHubService.updateProjectItemMilestone, Logger.info, Logger.error,
      try_catch, bind, call, send, emit, throw, ret, events.
    do 3 (answer; [|intuition discriminate]).
    destruct (truthy status) eqn:Hs, (truthy milestone) eqn:Hm;
      cbn -[lit Z_toString]; intuition (try discriminate); congruence. }
  split; [|split; [|split]].
  - intros projectId itemId v inner c Hin.
    destruct (Hstatus _ _ _ _ _ Hin) as [-> Ht].
    repeat split; trivial; intros ->; discriminate.
  - intros projectId itemId v inner c Hin.
    destruct (Hmilestone _ _ _ _ _ Hin) as [-> Ht].
    repeat split; trivial; intros ->; discriminate.
  - intros -> projectId itemId v inner c Hin.
    destruct (Hstatus _ _ _ _ _ Hin) as [_ Ht]. discriminate.
  - intros -> projectId itemId v inner c Hin.
    destruct (Hmilestone _ _ _ _ _ Hin) as [_ Ht]. discriminate.
Qed.
End AddIssueToProject.

(** With a status and no milestone, on a board that answers: the status is
    updated and the milestone is not. *)
Example addIssueToProject_status_only :
  events (GitHubService.addIssueToProject Mock.octokit Mock.service 7
            (Str (lit "Todo")) Null tt)
  = [Log INFO (lit "Adding issue #7 to project board") None;
     GetProject [Request (GraphqlProjectV2 (Str (lit "test-owner")) (Some 1))]
       (Returns (Project.mk (lit "PVT_1")));
     AddItemToProject (lit "PVT_1") 7
       [Request (IssuesGet (Str (lit "test-owner")) (Str (lit "test-repo")) 7);
        Request (GraphqlAddProjectV2ItemById (lit "PVT_1") (lit ""))]
       (Returns (ProjectItem.mk (lit "PVTI_1")));
     UpdateProjectItemStatus (lit "PVT_1") (lit "PVTI_1") (Str (lit "Todo"))
       [Log INFO (lit "Updating project item status to: Todo") None] (Returns tt);
     Log INFO (lit "Successfully added issue #7 to project board") None].
Proof. reflexivity. Qed.

Lemma addIssueToProject_updates_witness :
  Str (lit "Todo") = Str (lit "Todo") /\ Str (lit "Todo") <> Null
  /\ Str (lit "Todo") <> Undefined /\ truthy (Str (lit "Todo")) = true.
Proof.
  apply (proj1 (addIssueToProject_updates Mock.octokit Mock.service 7
                  (Str (lit "Todo")) Null tt)
           (lit "PVT_1") (lit "PVTI_1") (Str (lit "Todo"))
           [Log INFO (lit "Updating project item status to: Todo") None] (Returns tt)).
  rewrite addIssueToProject_status_only. simpl. tauto.
Defined.

(** ** The configuration at start-up (src/config.js, src/index.js) *)

Lemma join_occurs (sep x : jsstring) (l : list jsstring) :
  In x l -> exists pre post, join sep l = pre ++ x ++ post.
Proof.
  induction l as [|y l IH]; [intros []|].
  intros [->|Hin].
  - exists [], (match l with [] => [] | _ => sep ++ join sep l end).
    destruct l; simpl; [now rewrite app_nil_r|reflexivity].
  - destruct (IH Hin) as (pre & post & Hjoin).
    exists (y ++ sep ++ pre), post.
    destruct l as [|z l]; [destruct Hin|].
    change (join sep (y :: z :: l)) with (y ++ sep ++ join sep (z :: l)).
    rewrite Hjoin. now rewrite <- !app_assoc.
Qed.

(** A required variable is missing when it is not set or set to the empty
    string. *)
Lemma missing_spec (env : gmap jsstring jsstring) (key : jsstring) :
  In key (Config.missing env)
  <-> In key Config.required /\ (env !! key = None \/ env !! key = Some ([] : jsstring)).
Proof.
  unfold Config.missing. rewrite List.filter_In. unfold Config.getenv.
  destruct (env !! key) as [[|c s]|]; simpl; intuition congruence.
Qed.

Lemma validateRequiredEnvVars_cases {S : Type} (env : gmap jsstring jsstring) (s : S) :
  Config.validateRequiredEnvVars env s
  = match Config.missing env with
    | [] => (s, [], Returns tt)
    | _ :: _ =>
        (s, [], Throws (Error (lit "Missing required environment variables: "
                                 ++ join (lit ", ") (Config.missing env))))
    end.
Proof.
  unfold Config.validateRequiredEnvVars. now destruct (Config.missing env).
Qed.

Section Startup.
Context {S W : Type} (parseInt : value -> Z -> option Z).
Context (env : gmap jsstring jsstring) (argv : list jsstring).

(** C10. If a required variable ([GITHUB_TOKEN], [GITHUB_OWNER],
    [GITHUB_REPO], [PROJECT_NUMBER], [MANTIS_RSS_URL]) is not set, or set to
    nothing, the construction of the configuration throws an error whose
    message lists, after a fixed prefix, the names of all the missing
    variables and only them, separated by commas; nothing was logged or
    requested before, and the script ends there, whatever the collaborators
    are.  If every required variable is set to something, the construction
    returns a configuration. *)
Theorem Config_new_required (s : S) :
  ((exists key, In key Config.required /\ (env !! key = None \/ env !! key = Some ([] : jsstring))) ->
   Config.new parseInt env argv s
   = (s, [], Throws (Error (lit "Missing required environment variables: "
                              ++ join (lit ", ") (Config.missing env))))
   /\ (forall key,
         In key (Config.missing env)
         <-> In key Config.required /\ (env !! key = None \/ env !! key = Some ([] : jsstring)))
   /\ (forall key,
         In key (Config.missing env) ->
         exists pre post, join (lit ", ") (Config.missing env) = pre ++ key ++ post)
   /\ (forall (parser : Parser.t W) (octokit : Octokit.t W) (w : W),
         RSSToIssueApp.main parser octokit parseInt env argv w
         = (w, [], Throws (Error (lit "Missing required environment variables: "
                                    ++ join (lit ", ") (Config.missing env))))))
  /\ ((forall key, In key Config.required -> exists v : jsstring, env !! key = Some v /\ v <> []) ->
      exists config, Config.new parseInt env argv s = (s, [], Returns config)).
Proof.
  split.
  - intros (key & Hreq & Hunset).
    assert (Hmissing : In key (Config.missing env)) by (apply missing_spec; auto).
    split; [|split; [exact (missing_spec env)|split]].
    + unfold Config.new, bind. rewrite validateRequiredEnvVars_cases.
      destruct (Config.missing env); [destruct Hmissing|reflexivity].
    + intros k Hk. now apply join_occurs.
    + intros parser octokit w.
      unfold RSSToIssueApp.main, Config.new, bind. cbv beta.
      rewrite validateRequiredEnvVars_cases.
      destruct (Config.missing env); [destruct Hmissing|reflexivity].
  - intros Hset. eexists.
    unfold Config.new, bind. rewrite validateRequiredEnvVars_cases.
    destruct (Config.missing env) as [|key l] eqn:Hm; [reflexivity|].
    exfalso.
    assert (Hin : In key (Config.missing env)) by (rewrite Hm; now left).
    apply missing_spec in Hin as [Hreq Hunset].
    destruct (Hset key Hreq) as (v & Hv & Hne).
    destruct Hunset as [Hunset|Hunset]; congruence.
Qed.
End Startup.

(** The environment of the integration test without its token and with an
    empty feed address, and that environment as it is. *)
Lemma Config_new_required_witness :
  Config.new Mock.parseInt
    (<[lit "MANTIS_RSS_URL" := lit ""]> (delete (lit "GITHUB_TOKEN") Mock.env))
    [] tt
  = (tt, [], Throws (Error (lit "Missing required environment variables: GITHUB_TOKEN, MANTIS_RSS_URL")))
  /\ exists config, Config.new Mock.parseInt Mock.env [] tt = (tt, [], Returns config).
Proof.
  split.
  - refine (eq_trans
              (proj1 (proj1 (Config_new_required (W:=unit) Mock.parseInt
                               (<[lit "MANTIS_RSS_URL" := lit ""]>
                                  (delete (lit "GITHUB_TOKEN") Mock.env))
                               [] tt) _)) _).
    + exists (lit "GITHUB_TOKEN"). split; [now left|]. left. reflexivity.
    + reflexivity.
  - apply (proj2 (Config_new_required (W:=unit) Mock.parseInt Mock.env [] tt)).
    intros key Hkey. cbn in Hkey.
    destruct Hkey as [<-|[<-|[<-|[<-|[<-|[]]]]]]; eexists; (split; [reflexivity|discriminate]).
Defined.

(** ** The application (src/index.js) *)

(** Whatever fails inside, [run] does not throw: the failure is logged and
    the process exits with status 1. *)
Lemma run_never_throws {W : Type} (parser : Parser.t W) (octokit : Octokit.t W)
    (config : Config.t) (w : W) :
  outcome (RSSToIssueApp.run parser octokit config w) = Returns tt.
Proof.
  unfold RSSToIssueApp.run.
  match goal with
  | |- context [try_catch ?body _] => generalize body; intros m
  end.
  unfold try_catch, outcome, bind, Logger.error, emit.
  now destruct (m w) as [[w1 t1] [[]|e]].
Qed.

(** ** The tests of the repository, replayed *)

(** tests/services/rssService.test.js, "should handle missing fields
    gracefully" *)
Example normalize_missing_fields :
  RSSService.normalize (Mock.entry (Str (lit "Test Item")) Undefined Undefined)
  = {| Item.title := lit "Test Item"; Item.category := lit "General";
       Item.link := lit ""; Item.description := lit "No description available";
       Item.guid := Str (lit "Test Item"); Item.pubDate := Undefined |}.
Proof. reflexivity. Qed.

(** tests/services/issueService.test.js, "should handle title whitespace
    correctly" *)
Example findNewIssues_whitespace :
  outcome (IssueService.findNewIssues [Mock.item "  Whitespace Item  "]
             [Mock.issue 1 "Whitespace Item"] tt)
  = Returns [].
Proof. reflexivity. Qed.

(** tests/services/issueService.test.js, "should create issues in normal
    mode" *)
Example createNewIssues_normal_mode :
  IssueService.createNewIssues (Mock.github (lit "") 0) [Mock.item "Test Issue"]
    Mock.defaults false 0
  = (1,
     [started false 1;
      CreateIssue (Mock.item "Test Issue") [] (Returns (Mock.issue 1 "Test Issue"));
      AddIssueToProject 1 (Str (lit "Todo")) (Str (lit "v1.0")) [] (Returns tt);
      Sleep 1000;
      processed false 1],
     Returns [Mock.issue 1 "Test Issue"]).
Proof. reflexivity. Qed.

(** tests/integration/app.test.js, "should run complete workflow in dry run
    mode": the one item of the feed is new, nothing is created, and the
    summary is the last line. *)
Example main_dry_run :
  outcome (RSSToIssueApp.main Mock.parser Mock.octokit Mock.parseInt Mock.env [] tt)
  = Returns tt
  /\ last (events (RSSToIssueApp.main Mock.parser Mock.octokit Mock.parseInt Mock.env [] tt))
     = Some (Log INFO (lit "Summary:") (Some (DSummary 1 0 1 0))).
Proof. split; reflexivity. Qed.

(** * Further properties *)

(** ** What [trim] strips *)

Lemma trimStart_split (s : jsstring) :
  exists ws, s = ws ++ trimStart s /\ forallb isWhiteSpace ws = true.
Proof.
  induction s as [|c s (ws & Hs & Hws)]; simpl.
  - now exists [].
  - destruct (isWhiteSpace c) eqn:Hc.
    + exists (c :: ws). simpl. rewrite Hc, Hws. split; [now f_equal|reflexivity].
    + now exists [].
Qed.

Lemma forallb_rev {A} (f : A -> bool) (l : list A) :
  forallb f (rev l) = forallb f l.
Proof.
  induction l as [|x l IH]; [reflexivity|].
  simpl. rewrite forallb_app, IH. simpl. rewrite andb_true_r. apply andb_comm.
Qed.

Lemma trimEnd_split (s : jsstring) :
  exists ws, s = trimEnd s ++ ws /\ forallb isWhiteSpace ws = true.
Proof.
  unfold trimEnd. destruct (trimStart_split (rev s)) as (ws & Hs & Hws).
  exists (rev ws). split.
  - rewrite <- rev_app_distr, <- Hs. now rewrite rev_involutive.
  - now rewrite forallb_rev.
Qed.

Lemma trim_split (s : jsstring) :
  exists ws1 ws2,
    s = ws1 ++ trim s ++ ws2
    /\ forallb isWhiteSpace ws1 = true /\ forallb isWhiteSpace ws2 = true.
Proof.
  unfold trim. destruct (trimStart_split s) as (ws1 & Hs & H1).
  destruct (trimEnd_split (trimStart s)) as (ws2 & Ht & H2).
  exists ws1, ws2. split; [|now split]. now rewrite <- Ht.
Qed.

Lemma trim_first (s : jsstring) :
  match trim s with
  | c :: _ => isWhiteSpace c = false
  | [] => True
  end.
Proof.
  unfold trim. pose proof (trimStart_no_leading_space s) as H.
  destruct (trimStart s) as [|c t]; [exact I|].
  destruct (trimEnd_head c t H) as [u ->]. exact H.
Qed.

Lemma trim_last (s : jsstring) :
  match rev (trim s) with
  | c :: _ => isWhiteSpace c = false
  | [] => True
  end.
Proof.
  unfold trim, trimEnd. rewrite rev_involutive. apply trimStart_no_leading_space.
Qed.

(** ** More on the normalisation of a feed entry *)

(** X1. The title of a normalised item is trimmed for good: trimming it
    again changes nothing, and it starts and ends with a character that is
    not white space.  When it comes from the entry, it is the title of the
    entry without a prefix and a suffix made of white space only, so nothing
    else of that title is lost. *)
Theorem normalize_title_trimmed (item : Entry.t) :
  trim (Item.title (RSSService.normalize item)) = Item.title (RSSService.normalize item)
  /\ (exists c rest,
        Item.title (RSSService.normalize item) = c :: rest /\ isWhiteSpace c = false)
  /\ (exists front c,
        Item.title (RSSService.normalize item) = front ++ [c] /\ isWhiteSpace c = false)
  /\ (forall t,
        Entry.title item = Str t -> trim t <> [] ->
        exists ws1 ws2,
          t = ws1 ++ Item.title (RSSService.normalize item) ++ ws2
          /\ forallb isWhiteSpace ws1 = true /\ forallb isWhiteSpace ws2 = true).
Proof.
  assert (Hcases :
            Item.title (RSSService.normalize item) = lit "No Title"
            \/ exists t, Entry.title item = Str t /\ trim t <> []
                         /\ Item.title (RSSService.normalize item) = trim t).
  { unfold RSSService.normalize; simpl.
    destruct (Entry.title item) as [| |t]; simpl; auto.
    destruct (trim t) eqn:Ht; [now left|]. right. exists t. rewrite Ht.
    repeat split; congruence. }
  split; [|split; [|split]].
  - destruct Hcases as [->|(t & _ & _ & ->)]; [reflexivity|apply trim_idempotent].
  - destruct Hcases as [->|(t & _ & Hne & ->)].
    + eexists _, _. split; reflexivity.
    + pose proof (trim_first t) as Hf. destruct (trim t) as [|c rest]; [contradiction|].
      now exists c, rest.
  - destruct Hcases as [->|(t & _ & Hne & ->)].
    + exists (lit "No Titl"), 101%N. split; reflexivity.
    + pose proof (trim_last t) as Hl.
      destruct (rev (trim t)) as [|c front] eqn:Hrev.
      * exfalso. apply Hne. apply (f_equal (@rev N)) in Hrev.
        now rewrite rev_involutive in Hrev.
      * exists (rev front), c. split; [|exact Hl].
        apply (f_equal (@rev N)) in Hrev. now rewrite rev_involutive in Hrev.
  - intros t Ht Hne. destruct Hcases as [Hno|(t' & Ht' & _ & ->)].
    + unfold RSSService.normalize in *; simpl in *. rewrite Ht in *. simpl in *.
      destruct (trim t) eqn:E; [contradiction|].
      rewrite <- E. apply trim_split.
    + rewrite Ht in Ht'. injection Ht' as <-. apply trim_split.
Qed.

Lemma normalize_title_trimmed_witness :
  exists ws1 ws2,
    lit "  Foo  "
    = ws1 ++ Item.title (RSSService.normalize
                           (Mock.entry (Str (lit "  Foo  ")) Undefined Undefined)) ++ ws2
    /\ forallb isWhiteSpace ws1 = true /\ forallb isWhiteSpace ws2 = true.
Proof.
  apply (proj2 (proj2 (proj2 (normalize_title_trimmed
                                (Mock.entry (Str (lit "  Foo  ")) Undefined Undefined))))
           (lit "  Foo  ")); [reflexivity|].
  vm_compute. discriminate.
Defined.

(** X2. The description of a normalised item is never empty: it is the
    description of the entry when the entry has one, else its content when
    it has one, else the placeholder. *)
Theorem normalize_description (item : Entry.t) :
  Item.description (RSSService.normalize item) <> []
  /\ (forall s, Entry.description item = Str s -> s <> [] ->
        Item.description (RSSService.normalize item) = s)
  /\ (truthy (Entry.description item) = false ->
      forall s, Entry.content item = Str s -> s <> [] ->
        Item.description (RSSService.normalize item) = s)
  /\ (truthy (Entry.description item) = false -> truthy (Entry.content item) = false ->
      Item.description (RSSService.normalize item) = lit "No description available").
Proof.
  unfold RSSService.normalize, or_; simpl. split; [|split; [|split]].
  - apply or_else_nonempty. discriminate.
  - intros s -> Hs. destruct s; [contradiction|reflexivity].
  - intros -> s -> Hs. destruct s; [contradiction|reflexivity].
  - intros -> Hc. now destruct (Entry.content item) as [| |[|c s]].
Qed.

Lemma normalize_description_witness :
  Item.description
    (RSSService.normalize
       (Entry.mk (Str (lit "T")) Undefined Undefined (Str (lit "")) (Str (lit "body"))
                 Undefined Undefined Undefined))
  = lit "body".
Proof.
  apply (proj1 (proj2 (proj2 (normalize_description
           (Entry.mk (Str (lit "T")) Undefined Undefined (Str (lit "")) (Str (lit "body"))
                     Undefined Undefined Undefined))))
           eq_refl (lit "body") eq_refl).
  discriminate.
Defined.

(** X3. The category of a normalised item is never empty, ["General"]
    standing for a missing one, so that [createIssue] always sends exactly
    one label for a normalised item; the link is the link of the entry, or
    the empty string; the date is [pubDate], or else [isoDate]. *)
Theorem normalize_category_link_date (item : Entry.t) :
  Item.category (RSSService.normalize item) <> []
  /\ (forall s, Entry.category item = Str s -> s <> [] ->
        Item.category (RSSService.normalize item) = s)
  /\ (truthy (Entry.category item) = false ->
      Item.category (RSSService.normalize item) = lit "General")
  /\ labelsOf (RSSService.normalize item) = [Item.category (RSSService.normalize item)]
  /\ Item.link (RSSService.normalize item)
     = match Entry.link item with Str s => s | _ => [] end
  /\ Item.pubDate (RSSService.normalize item)
     = if truthy (Entry.pubDate item) then Entry.pubDate item else Entry.isoDate item.
Proof.
  assert (Hne : Item.category (RSSService.normalize item) <> []).
  { apply or_else_nonempty. discriminate. }
  split; [exact Hne|]. split; [|split; [|split; [|split]]].
  - intros s Hs Hnes. unfold RSSService.normalize; simpl. rewrite Hs.
    destruct s; [contradiction|reflexivity].
  - intros Hf. unfold RSSService.normalize; simpl.
    now destruct (Entry.category item) as [| |[|c s]].
  - unfold labelsOf. now destruct (Item.category (RSSService.normalize item)).
  - unfold RSSService.normalize; simpl. now destruct (Entry.link item) as [| |[|c s]].
  - reflexivity.
Qed.

Lemma normalize_category_link_date_witness :
  Item.category (RSSService.normalize (Mock.entry (Str (lit "T")) Undefined Undefined))
  = lit "General".
Proof.
  exact (proj1 (proj2 (proj2 (normalize_category_link_date
                                (Mock.entry (Str (lit "T")) Undefined Undefined))))
           eq_refl).
Defined.

(** ** More on novelty by title *)

Lemma normalize_title_fixed (item : Entry.t) :
  trim (Item.title (RSSService.normalize item)) = Item.title (RSSService.normalize item).
Proof.
  unfold RSSService.normalize; simpl.
  destruct (Entry.title item) as [| |t]; simpl; try reflexivity.
  destruct (trim t) eqn:Ht; [reflexivity|]. rewrite <- Ht. apply trim_idempotent.
Qed.

Lemma filter_sublist {A} (f : A -> bool) (l : list A) : sublist (List.filter f l) l.
Proof.
  induction l as [|x l IH]; simpl; [constructor|].
  destruct (f x); now constructor.
Qed.

Lemma filter_twice {A} (f : A -> bool) (l : list A) :
  List.filter f (List.filter f l) = List.filter f l.
Proof.
  induction l as [|x l IH]; simpl; [reflexivity|].
  destruct (f x) eqn:Hx; simpl; [now rewrite Hx, IH|exact IH].
Qed.

Section MoreFindNewIssues.
Context {W : Type}.
Implicit Types (rssItems : list Item.t) (existingIssues : list Issue.t) (w : W).

(** The value returned, whichever path is taken. *)
Lemma findNewIssues_outcome rssItems existingIssues w :
  outcome (IssueService.findNewIssues rssItems existingIssues w)
  = Returns (IssueService.notExisting (IssueService.existingTitles existingIssues)
               rssItems).
Proof.
  destruct existingIssues as [|issue rest]; [|reflexivity].
  unfold IssueService.findNewIssues, outcome; simpl. f_equal.
  unfold IssueService.notExisting, IssueService.has, IssueService.existingTitles. simpl.
  induction rssItems as [|item l IH]; [reflexivity|]. simpl.
  rewrite bool_decide_eq_false_2 by apply not_elem_of_empty. simpl. now f_equal.
Qed.

Lemma findNewIssues_final rssItems existingIssues w :
  final (IssueService.findNewIssues rssItems existingIssues w) = w.
Proof. destruct existingIssues; reflexivity. Qed.

(** X4. On the items that [fetchRSSItems] builds, [findNewIssues] returns
    what the general algorithm of the specification returns, for every list
    of existing issues: the titles of these items are trimmed already, so
    that trimming them again before the look-up makes no difference. *)
Theorem findNewIssues_on_normalized (entries : list Entry.t) existingIssues w :
  outcome (IssueService.findNewIssues (List.map RSSService.normalize entries)
             existingIssues w)
  = Returns (findNew_general (List.map RSSService.normalize entries) existingIssues).
Proof.
  rewrite findNewIssues_outcome. f_equal.
  unfold IssueService.notExisting, findNew_general, IssueService.has,
    IssueService.existingTitles.
  apply List.filter_ext_in. intros item Hin.
  apply List.in_map_iff in Hin as (entry & <- & _).
  rewrite normalize_title_fixed.
  match goal with
  | |- negb (bool_decide ?P) = _ => destruct (decide P) as [Hyes|Hno]
  end.
  - rewrite (bool_decide_eq_true_2 _ Hyes). symmetry.
    apply bool_decide_eq_false_2. intros Hn. exact (Hn Hyes).
  - rewrite (bool_decide_eq_false_2 _ Hno). symmetry. now apply bool_decide_eq_true_2.
Qed.

(** X5. [findNewIssues] never throws, leaves the world alone, and returns a
    subsequence of the feed items, so no more items than it was given;
    filtering its result again against the same issues changes nothing. *)
Theorem findNewIssues_subsequence rssItems existingIssues w :
  exists newIssues,
    outcome (IssueService.findNewIssues rssItems existingIssues w) = Returns newIssues
    /\ final (IssueService.findNewIssues rssItems existingIssues w) = w
    /\ sublist newIssues rssItems
    /\ (length newIssues <= length rssItems)%nat
    /\ outcome (IssueService.findNewIssues newIssues existingIssues w) = Returns newIssues.
Proof.
  eexists. rewrite findNewIssues_final, !findNewIssues_outcome.
  split; [reflexivity|]. split; [reflexivity|]. split; [|split].
  - apply filter_sublist.
  - apply sublist_length, filter_sublist.
  - f_equal. apply filter_twice.
Qed.

(** X6. An item that an existing issue matches by trimmed title is never
    returned, so that when every feed item is matched nothing is new; and
    the more issues exist, the fewer items are new. *)
Theorem findNewIssues_existing rssItems existingIssues w :
  ((forall item, In item rssItems ->
      exists issue, In issue existingIssues
                    /\ trim (Issue.title issue) = trim (Item.title item)) ->
   outcome (IssueService.findNewIssues rssItems existingIssues w) = Returns [])
  /\ (forall more newIssues newIssues',
        outcome (IssueService.findNewIssues rssItems existingIssues w)
        = Returns newIssues ->
        outcome (IssueService.findNewIssues rssItems (existingIssues ++ more) w)
        = Returns newIssues' ->
        forall item, In item newIssues' -> In item newIssues).
Proof.
  split.
  - intros Hall. rewrite findNewIssues_outcome. f_equal.
    rewrite notExisting_filter.
    induction rssItems as [|item l IH]; [reflexivity|]. simpl.
    rewrite bool_decide_eq_false_2.
    + apply IH. intros i Hi. apply Hall. now right.
    + intros Hnot. apply Hnot.
      destruct (Hall item (or_introl eq_refl)) as (issue & Hin & Htitle).
      apply list_elem_of_In. unfold trimmedTitles. apply List.in_map_iff.
      exists issue. now split.
  - intros more newIssues newIssues'. rewrite !findNewIssues_outcome.
    intros [= <-] [= <-] item.
    rewrite !notExisting_filter, !List.filter_In.
    intros [Hin Hnew]. split; [exact Hin|].
    apply bool_decide_eq_true_1 in Hnew. apply bool_decide_eq_true_2.
    intros Hold. apply Hnew. unfold trimmedTitles in *.
    rewrite List.map_app. apply elem_of_app. now left.
Qed.
End MoreFindNewIssues.

Lemma findNewIssues_existing_witness :
  outcome (IssueService.findNewIssues
             [Mock.item "  Test Item 1"; Mock.item "Test Item 2"]
             [Mock.issue 2 "Test Item 2  "; Mock.issue 1 "Test Item 1"] tt)
  = Returns [].
Proof.
  apply (proj1 (findNewIssues_existing
                  [Mock.item "  Test Item 1"; Mock.item "Test Item 2"]
                  [Mock.issue 2 "Test Item 2  "; Mock.issue 1 "Test Item 1"] tt)).
  intros item [<-|[<-|[]]].
  - exists (Mock.issue 1 "Test Item 1"). split; [right; now left|reflexivity].
  - exists (Mock.issue 2 "Test Item 2  "). split; [now left|reflexivity].
Defined.

(** ** The feed reader and the listing of the issues *)

Section Readers.
Context {W : Type} (parser : Parser.t W) (octokit : Octokit.t W) (this : GitHubService.t).

(** X7. [fetchRSSItems] sends one request, the parsing of the address it is
    given.  If the parser returns, the items are the normalised entries, one
    per entry and in their order; if the parser throws, the failure is
    logged and a new error is thrown whose message is that of the cause
    after ["RSS fetch failed: "], and no item is returned.  The world is
    left as the parser left it. *)
Theorem fetchRSSItems_all_or_nothing (url : value) (w : W) :
  requests (events (RSSService.fetchRSSItems parser url w)) = [ParseURL url]
  /\ match Parser.parseURL parser url w with
     | (w', Returns entries) =>
         final (RSSService.fetchRSSItems parser url w) = w'
         /\ outcome (RSSService.fetchRSSItems parser url w)
            = Returns (List.map RSSService.normalize entries)
     | (w', Throws e) =>
         final (RSSService.fetchRSSItems parser url w) = w'
         /\ outcome (RSSService.fetchRSSItems parser url w)
            = Throws (Error (lit "RSS fetch failed: " ++ message e))
         /\ last (events (RSSService.fetchRSSItems parser url w))
            = Some (Log ERROR (lit "Failed to fetch RSS feed") (Some (DError e)))
     end.
Proof.
  unfold RSSService.fetchRSSItems, Logger.info, Logger.error, try_catch, bind, send,
    emit, throw, ret, events, outcome, final.
  destruct (Parser.parseURL parser url w) as [w' [entries|e]]; cbn -[lit nat_toString];
    repeat split; reflexivity.
Qed.

(** X8. [getExistingIssues] sends one request, the listing of the issues of
    the repository in every state, a hundred a page.  It returns the issues
    as the client gives them; if the client throws, the failure is logged
    and a new error is thrown whose message is that of the cause after
    ["GitHub API error: "]. *)
Theorem getExistingIssues_all_or_nothing (w : W) :
  requests (events (GitHubService.getExistingIssues octokit this w))
  = [IssuesListForRepo (GitHubService.owner this) (GitHubService.repo this) (lit "all") 100]
  /\ match Octokit.issues_listForRepo octokit (GitHubService.owner this)
             (GitHubService.repo this) (lit "all") 100 w with
     | (w', Returns issues) =>
         final (GitHubService.getExistingIssues octokit this w) = w'
         /\ outcome (GitHubService.getExistingIssues octokit this w) = Returns issues
     | (w', Throws e) =>
         final (GitHubService.getExistingIssues octokit this w) = w'
         /\ outcome (GitHubService.getExistingIssues octokit this w)
            = Throws (Error (lit "GitHub API error: " ++ message e))
         /\ last (events (GitHubService.getExistingIssues octokit this w))
            = Some (Log ERROR (lit "Failed to fetch existing issues") (Some (DError e)))
     end.
Proof.
  unfold GitHubService.getExistingIssues, Logger.info, Logger.error, try_catch, bind,
    send, emit, throw, ret, events, outcome, final.
  destruct (Octokit.issues_listForRepo octokit _ _ _ _ w) as [w' [issues|e]];
    cbn -[lit nat_toString]; repeat split; reflexivity.
Qed.
End Readers.

(** ** The gateway of src/services/githubService.js *)

Section Gateway.
Context {W : Type} (octokit : Octokit.t W) (this : GitHubService.t).

Lemma createIssue_cases (issueData : Item.t) (w : W) :
  match Octokit.issues_create octokit (GitHubService.owner this)
          (GitHubService.repo this) (Item.title issueData)
          (GitHubService.formatIssueBody issueData) (labelsOf issueData) w with
  | (w', Returns issue) =>
      GitHubService.createIssue octokit this issueData w
      = (w',
         [Log INFO (lit "Creating issue: " ++ Item.title issueData) None;
          Request (IssuesCreate (GitHubService.owner this) (GitHubService.repo this)
                     (Item.title issueData) (GitHubService.formatIssueBody issueData)
                     (labelsOf issueData));
          Log INFO (lit "Created issue #" ++ Z_toString (Issue.number issue)
                      ++ lit ": " ++ Issue.title issue) None],
         Returns issue)
  | (w', Throws e) =>
      GitHubService.createIssue octokit this issueData w
      = (w',
         [Log INFO (lit "Creating issue: " ++ Item.title issueData) None;
          Request (IssuesCreate (GitHubService.owner this) (GitHubService.repo this)
                     (Item.title issueData) (GitHubService.formatIssueBody issueData)
                     (labelsOf issueData));
          Log ERROR (lit "Failed to create issue: " ++ Item.title issueData)
            (Some (DError e))],
         Throws (Error (lit "Issue creation failed: " ++ message e)))
  end.
Proof.
  unfold GitHubService.createIssue, Logger.info, Logger.error, try_catch, bind, send,
    emit, throw, ret.
  change (match Item.category issueData with
          | [] => []
          | _ :: _ => [Item.category issueData]
          end) with (labelsOf issueData).
  destruct (Octokit.issues_create octokit _ _ _ _ _ w) as [w' [issue|e]]; reflexivity.
Qed.

Lemma createIssue_requests (issueData : Item.t) (w : W) :
  requests (events (GitHubService.createIssue octokit this issueData w))
  = [IssuesCreate (GitHubService.owner this) (GitHubService.repo this)
       (Item.title issueData) (GitHubService.formatIssueBody issueData)
       (labelsOf issueData)].
Proof.
  pose proof (createIssue_cases issueData w) as H.
  destruct (Octokit.issues_create octokit _ _ _ _ _ w) as [w' [issue|e]];
    rewrite H; reflexivity.
Qed.

(** X9. [createIssue] sends one request, the creation of an issue of the
    repository with the title of the item, the body that [formatIssueBody]
    makes of it, and its category as the only label, or no label when the
    category is empty.  It returns the issue as the client gives it; if the
    client throws, a new error is thrown whose message is that of the cause
    after ["Issue creation failed: "]. *)
Theorem createIssue_one_request (issueData : Item.t) (w : W) :
  requests (events (GitHubService.createIssue octokit this issueData w))
  = [IssuesCreate (GitHubService.owner this) (GitHubService.repo this)
       (Item.title issueData) (GitHubService.formatIssueBody issueData)
       (if bool_decide (Item.category issueData = [])
        then [] else [Item.category issueData])]
  /\ match Octokit.issues_create octokit (GitHubService.owner this)
             (GitHubService.repo this) (Item.title issueData)
             (GitHubService.formatIssueBody issueData) (labelsOf issueData) w with
     | (w', Returns issue) =>
         final (GitHubService.createIssue octokit this issueData w) = w'
         /\ outcome (GitHubService.createIssue octokit this issueData w) = Returns issue
     | (w', Throws e) =>
         final (GitHubService.createIssue octokit this issueData w) = w'
         /\ outcome (GitHubService.createIssue octokit this issueData w)
            = Throws (Error (lit "Issue creation failed: " ++ message e))
     end.
Proof.
  split.
  - rewrite createIssue_requests. unfold labelsOf.
    now destruct (Item.category issueData).
  - pose proof (createIssue_cases issueData w) as H.
    destruct (Octokit.issues_create octokit _ _ _ _ _ w) as [w' [issue|e]];
      rewrite H; split; reflexivity.
Qed.
End Gateway.

Section Board.
Context {W : Type} (octokit : Octokit.t W) (this : GitHubService.t).

(** Unfolding [addIssueToProject] down to the requests. *)
Ltac open_addIssueToProject :=
  unfold GitHubService.addIssueToProject, GitHubService.getProject,
    GitHubService.addItemToProject, GitHubService.updateProjectItemStatus,
    GitHubService.updateProjectItemMilestone, Logger.info, Logger.error,
    try_catch, bind, call, send, emit, throw, ret, events, outcome, final.

Lemma addIssueToProject_no_create (issueNumber : Z) (status milestone : value) (w : W) :
  List.filter isIssuesCreate
    (requests (events (GitHubService.addIssueToProject octokit this issueNumber
                         status milestone w)))
  = [].
Proof.
  open_addIssueToProject.
  do 3 (answer; [|reflexivity]).
  destruct (truthy status), (truthy milestone); reflexivity.
Qed.

(** X10. [addIssueToProject] sends at most three requests, in this order:
    the query of the project, the reading of the issue, and the addition to
    the project of the node that this reading returned.  The first request
    that throws ends the call: nothing is sent after it, no update is
    called, the failure is logged last, and the very error of the request is
    thrown again. *)
Theorem addIssueToProject_propagates (issueNumber : Z) (status milestone : value)
    (w : W) :
  let P := GraphqlProjectV2 (GitHubService.owner this) (GitHubService.projectNumber this) in
  let G := IssuesGet (GitHubService.owner this) (GitHubService.repo this) issueNumber in
  let r := GitHubService.addIssueToProject octokit this issueNumber status milestone w in
  let failed e :=
    outcome r = Throws e
    /\ statusUpdates (events r) = [] /\ milestoneUpdates (events r) = []
    /\ last (events r)
       = Some (Log ERROR (lit "Failed to add issue #" ++ Z_toString issueNumber
                            ++ lit " to project") (Some (DError e))) in
  match Octokit.graphql_projectV2 octokit (GitHubService.owner this)
          (GitHubService.projectNumber this) w with
  | (w1, Throws e) => requests (events r) = [P] /\ final r = w1 /\ failed e
  | (w1, Returns project) =>
      match Octokit.issues_get octokit (GitHubService.owner this)
              (GitHubService.repo this) issueNumber w1 with
      | (w2, Throws e) => requests (events r) = [P; G] /\ final r = w2 /\ failed e
      | (w2, Returns issue) =>
          let A := GraphqlAddProjectV2ItemById (Project.id project) (Issue.node_id issue) in
          match Octokit.graphql_addProjectV2ItemById octokit (Project.id project)
                  (Issue.node_id issue) w2 with
          | (w3, Throws e) => requests (events r) = [P; G; A] /\ final r = w3 /\ failed e
          | (w3, Returns _) =>
              requests (events r) = [P; G; A] /\ final r = w3 /\ outcome r = Returns tt
          end
      end
  end.
Proof.
  cbv zeta. open_addIssueToProject.
  do 3 (answer; [|repeat split; reflexivity]).
  destruct (truthy status), (truthy milestone); repeat split; reflexivity.
Qed.

(** X11. When its three requests return, [addIssueToProject] returns, after
    calling [updateProjectItemStatus] once with the status if the status is
    truthy, then [updateProjectItemMilestone] once with the milestone if the
    milestone is truthy, each with the identifier of the project and of the
    item added; an update that is not due is not called. *)
Theorem addIssueToProject_applies_updates (issueNumber : Z) (status milestone : value)
    (w : W) :
  match Octokit.graphql_projectV2 octokit (GitHubService.owner this)
          (GitHubService.projectNumber this) w with
  | (w1, Returns project) =>
      match Octokit.issues_get octokit (GitHubService.owner this)
              (GitHubService.repo this) issueNumber w1 with
      | (w2, Returns issue) =>
          match Octokit.graphql_addProjectV2ItemById octokit (Project.id project)
                  (Issue.node_id issue) w2 with
          | (w3, Returns item) =>
              exists before,
                events (GitHubService.addIssueToProject octokit this issueNumber
                          status milestone w)
                = before
                  ++ (if truthy status
                      then [UpdateProjectItemStatus (Project.id project)
                              (ProjectItem.id item) status
                              [Log INFO (lit "Updating project item status to: "
                                           ++ toString status) None]
                              (Returns tt)]
                      else [])
                  ++ (if truthy milestone
                      then [UpdateProjectItemMilestone (Project.id project)
                              (ProjectItem.id item) milestone
                              [Log INFO (lit "Updating project item milestone to: "
                                           ++ toString milestone) None]
                              (Returns tt)]
                      else [])
                  ++ [Log INFO (lit "Successfully added issue #"
                                  ++ Z_toString issueNumber
                                  ++ lit " to project board") None]
                /\ statusUpdates before = [] /\ milestoneUpdates before = []
          | (_, Throws _) => True
          end
      | (_, Throws _) => True
      end
  | (_, Throws _) => True
  end.
Proof.
  open_addIssueToProject.
  do 3 (answer; [|exact I]).
  eexists [_; _; _].
  destruct (truthy status), (truthy milestone); repeat split; reflexivity.
Qed.
End Board.

(** ** More on the batch *)

Section MoreBatch.
Context {W : Type} (github : GitHub.t W) (defaults : Defaults.t).
Implicit Types (w : W) (items : list Item.t) (tr : trace) (issues : list Issue.t).

Lemma sequential_accounts w items w' tr issues :
  sequential github defaults w items w' tr issues ->
  (length issues + length (refused tr) = length items)%nat
  /\ attachCalls tr
     = List.map (fun issue => (Issue.number issue, Defaults.status defaults,
                               Defaults.milestone defaults)) issues
  /\ pauses tr = List.map (fun _ => 1000) (attached tr)
  /\ (length (attached tr) <= length issues)%nat.
Proof.
  unfold refused, attachCalls, pauses, attached.
  induction 1 as [w|w d w1 inn e0 items w' tr issues Hc Hs (IH1 & IH2 & IH3 & IH4)
                 |w d w1 inn issue w2 inn' e0 items w' tr issues Hc Ha Hs
                    (IH1 & IH2 & IH3 & IH4)
                 |w d w1 inn issue w2 inn' u0 items w' tr issues Hc Ha Hs
                    (IH1 & IH2 & IH3 & IH4)];
    cbn [flat_map failure app length List.map].
  - repeat split; reflexivity || lia.
  - repeat split; auto; lia.
  - rewrite IH2. repeat split; auto; lia.
  - rewrite IH2, IH3. repeat split; auto; simpl; lia.
Qed.

Lemma sequential_no_exit w items w' tr issues :
  sequential github defaults w items w' tr issues ->
  forall code, ~ In (Exit code) tr.
Proof.
  induction 1 as [w|w d w1 inn e0 items w' tr issues Hc Hs IH
                 |w d w1 inn issue w2 inn' e0 items w' tr issues Hc Ha Hs IH
                 |w d w1 inn issue w2 inn' u0 items w' tr issues Hc Ha Hs IH];
    unfold failure; simpl; intros code H.
  - exact H.
  - destruct H as [H|[H|H]]; [discriminate|discriminate|]. exact (IH code H).
  - destruct H as [H|[H|[H|H]]]; [discriminate|discriminate|discriminate|].
    exact (IH code H).
  - destruct H as [H|[H|[H|H]]]; [discriminate|discriminate|discriminate|].
    exact (IH code H).
Qed.

Lemma createNewIssues_dry_nonempty items w :
  items <> [] ->
  IssueService.createNewIssues github items defaults true w
  = (w,
     started true (length items)
     :: flat_map (fun d => wouldCreate d) items ++ [processed true 0],
     Returns []).
Proof.
  intros Hne. destruct items as [|d l]; [contradiction|].
  unfold IssueService.createNewIssues. cbn [length Nat.eqb].
  unfold with_local, bind, Logger.info, emit, local, ret.
  rewrite for_of_dry_run. reflexivity.
Qed.

(** The batch returns, in the dry run or not. *)
Lemma createNewIssues_events items (dryRun : bool) w :
  exists w' tr issues,
    IssueService.createNewIssues github items defaults dryRun w = (w', tr, Returns issues)
    /\ (length issues <= length items)%nat
    /\ (dryRun = true -> w' = w /\ requests tr = [] /\ issues = [])
    /\ (forall code, ~ In (Exit code) tr).
Proof.
  destruct items as [|issueData items0] eqn:Hitems.
  - exists w, [Log INFO (lit "No new issues to create") None], [].
    destruct dryRun; (split; [reflexivity|]); (split; [simpl; lia|]);
      (split; [auto|]); intros code [H|[]]; discriminate.
  - rewrite <- Hitems. destruct dryRun.
    + exists w, (started true (length items)
                 :: flat_map (fun d => wouldCreate d) items ++ [processed true 0]), [].
      split; [|split; [simpl; lia|split]].
      * apply createNewIssues_dry_nonempty. subst; discriminate.
      * intros _. split; [reflexivity|]. split; [|reflexivity].
        unfold requests. cbn [flat_map requestsOf started app]. rewrite flat_map_app.
        clear. induction items as [|d l IH]; [reflexivity|exact IH].
      * intros code [H|H]; [discriminate|].
        apply in_app_or in H as [H|[H|[]]]; [|discriminate].
        apply in_flat_map in H as (d & _ & [H|[H|[]]]); discriminate.
    + destruct (createNewIssues_sequential github defaults items w)
        as (w' & tr & issues & Hseq & Hrun); [subst; discriminate|].
      exists w', (started false (length items) :: tr ++ [processed false (length issues)]),
        issues.
      split; [exact Hrun|].
      destruct (sequential_accounts _ _ _ _ _ Hseq) as (Hlen & _).
      split; [lia|]. split; [discriminate|].
      intros code [H|H]; [discriminate|].
      apply in_app_or in H as [H|[H|[]]]; [|discriminate].
      exact (sequential_no_exit _ _ _ _ _ Hseq code H).
Qed.

Lemma flat_map_framed {B} (f : event -> list B) (dryRun : bool) (n m : nat) tr :
  (forall lvl msg d, f (Log lvl msg d) = []) ->
  flat_map f (started dryRun n :: tr ++ [processed dryRun m]) = flat_map f tr.
Proof.
  intros Hlog. unfold started, processed. cbn [flat_map]. rewrite Hlog. simpl.
  rewrite flat_map_app. cbn [flat_map]. rewrite Hlog. now rewrite !app_nil_r.
Qed.

(** X12. Outside the dry run every item is accounted for: the number of
    issues returned and the number of items whose creation threw add up to
    the number of items, so that no more issues are returned than items
    were given. *)
Theorem createNewIssues_accounts items w :
  exists issues,
    outcome (IssueService.createNewIssues github items defaults false w) = Returns issues
    /\ (length issues
        + length (refused (events (IssueService.createNewIssues github items defaults
                                     false w)))
        = length items)%nat
    /\ (length issues <= length items)%nat.
Proof.
  destruct items as [|issueData0 items0] eqn:Hitems.
  - exists []. repeat split; reflexivity.
  - rewrite <- Hitems.
    destruct (createNewIssues_sequential github defaults items w)
      as (w' & tr & issues & Hseq & Hrun); [subst; discriminate|].
    exists issues. rewrite Hrun. unfold outcome, events; cbn [fst snd].
    unfold refused. rewrite flat_map_framed by reflexivity.
    destruct (sequential_accounts _ _ _ _ _ Hseq) as (Hlen & _).
    split; [reflexivity|]. split; [exact Hlen|lia].
Qed.

(** X13. Outside the dry run [addIssueToProject] is called once for every
    issue returned, in their order, with the number of the issue and the
    status and the milestone of the defaults, and for nothing else. *)
Theorem createNewIssues_attaches_each items w :
  exists issues,
    outcome (IssueService.createNewIssues github items defaults false w) = Returns issues
    /\ attachCalls (events (IssueService.createNewIssues github items defaults false w))
       = List.map (fun issue => (Issue.number issue, Defaults.status defaults,
                                 Defaults.milestone defaults)) issues.
Proof.
  destruct items as [|issueData0 items0] eqn:Hitems.
  - exists []. split; reflexivity.
  - rewrite <- Hitems.
    destruct (createNewIssues_sequential github defaults items w)
      as (w' & tr & issues & Hseq & Hrun); [subst; discriminate|].
    exists issues. rewrite Hrun. unfold outcome, events; cbn [fst snd].
    unfold attachCalls. rewrite flat_map_framed by reflexivity.
    split; [reflexivity|]. exact (proj1 (proj2 (sequential_accounts _ _ _ _ _ Hseq))).
Qed.

(** X14. The batch pauses once, for 1000 ms, for every attachment that
    returned and for nothing else: in the dry run it does not pause, and
    outside it the pauses are no more than the issues returned. *)
Theorem createNewIssues_pauses items (dryRun : bool) w :
  pauses (events (IssueService.createNewIssues github items defaults dryRun w))
  = List.map (fun _ => 1000)
      (attached (events (IssueService.createNewIssues github items defaults dryRun w)))
  /\ (if dryRun
      then pauses (events (IssueService.createNewIssues github items defaults dryRun w))
           = []
      else exists issues,
          outcome (IssueService.createNewIssues github items defaults dryRun w)
          = Returns issues
          /\ (length (pauses (events (IssueService.createNewIssues github items defaults
                                        dryRun w)))
              <= length issues)%nat).
Proof.
  destruct items as [|issueData0 items0] eqn:Hitems.
  - destruct dryRun; (split; [reflexivity|]); [reflexivity|].
    exists []. split; [reflexivity|]. simpl. lia.
  - rewrite <- Hitems. destruct dryRun.
    + assert (Hrun :
        events (IssueService.createNewIssues github items defaults true w)
        = started true (length items)
          :: flat_map (fun d => wouldCreate d) items ++ [processed true 0]).
      { rewrite createNewIssues_dry_nonempty by (subst; discriminate). reflexivity. }
      rewrite Hrun. unfold pauses, attached. rewrite !flat_map_framed by reflexivity.
      assert (Hp : forall l : list Item.t,
                 flat_map (fun ev => match ev with Sleep ms => [ms] | _ => [] end)
                   (flat_map (fun d => wouldCreate d) l) = []).
      { induction l as [|d l IH]; [reflexivity|exact IH]. }
      assert (Ha : forall l : list Item.t,
                 flat_map (fun ev => match ev with
                                     | AddIssueToProject n _ _ _ (Returns _) => [n]
                                     | _ => []
                                     end)
                   (flat_map (fun d => wouldCreate d) l) = []).
      { induction l as [|d l IH]; [reflexivity|exact IH]. }
      rewrite Hp, Ha. split; reflexivity.
    + destruct (createNewIssues_sequential github defaults items w)
        as (w' & tr & issues & Hseq & Hrun); [subst; discriminate|].
      rewrite Hrun. unfold outcome, events; cbn [fst snd].
      unfold pauses, attached. rewrite !flat_map_framed by reflexivity.
      destruct (sequential_accounts _ _ _ _ _ Hseq) as (_ & _ & Hp & Hle).
      fold (pauses tr). fold (attached tr). split; [exact Hp|].
      exists issues. split; [reflexivity|]. rewrite Hp, length_map. exact Hle.
Qed.
End MoreBatch.

(** ** The batch through the gateway of src/services/githubService.js *)

Section ServiceBatch.
Context {W : Type} (octokit : Octokit.t W) (this : GitHubService.t).
Context (defaults : Defaults.t).

Lemma sequential_service_creates w items w' tr issues :
  sequential (GitHub.service octokit this) defaults w items w' tr issues ->
  List.filter isIssuesCreate (requests tr)
  = List.map (fun issueData =>
                IssuesCreate (GitHubService.owner this) (GitHubService.repo this)
                  (Item.title issueData) (GitHubService.formatIssueBody issueData)
                  (labelsOf issueData)) items.
Proof.
  assert (Hcreate : forall d w0 w1 inn (r : completion Issue.t),
             GitHub.createIssue (GitHub.service octokit this) d w0 = (w1, inn, r) ->
             List.filter isIssuesCreate (requests inn)
             = [IssuesCreate (GitHubService.owner this) (GitHubService.repo this)
                  (Item.title d) (GitHubService.formatIssueBody d) (labelsOf d)]).
  { intros d w0 w1 inn r H. simpl in H.
    pose proof (createIssue_requests octokit this d w0) as Hr.
    rewrite H in Hr. unfold events in Hr; simpl in Hr. now rewrite Hr. }
  assert (Hattach : forall n st ms w0 w1 inn (r : completion unit),
             GitHub.addIssueToProject (GitHub.service octokit this) n st ms w0
             = (w1, inn, r) ->
             List.filter isIssuesCreate (requests inn) = []).
  { intros n st ms w0 w1 inn r H. simpl in H.
    pose proof (addIssueToProject_no_create octokit this n st ms w0) as Hr.
    rewrite H in Hr. exact Hr. }
  induction 1 as [w|w d w1 inn e0 items w' tr issues Hc Hs IH
                 |w d w1 inn issue w2 inn' e0 items w' tr issues Hc Ha Hs IH
                 |w d w1 inn issue w2 inn' u0 items w' tr issues Hc Ha Hs IH].
  - reflexivity.
  - change (requests (CreateIssue d inn (Throws e0) :: failure d e0 :: tr))
      with (requests inn ++ requests tr).
    rewrite List.filter_app, (Hcreate _ _ _ _ _ Hc), IH. reflexivity.
  - change (List.filter isIssuesCreate (requests inn ++ requests inn' ++ requests tr)
            = List.map (fun issueData =>
                IssuesCreate (GitHubService.owner this) (GitHubService.repo this)
                  (Item.title issueData) (GitHubService.formatIssueBody issueData)
                  (labelsOf issueData)) (d :: items)).
    rewrite !List.filter_app, (Hcreate _ _ _ _ _ Hc), (Hattach _ _ _ _ _ _ _ Ha), IH.
    reflexivity.
  - change (List.filter isIssuesCreate (requests inn ++ requests inn' ++ requests tr)
            = List.map (fun issueData =>
                IssuesCreate (GitHubService.owner this) (GitHubService.repo this)
                  (Item.title issueData) (GitHubService.formatIssueBody issueData)
                  (labelsOf issueData)) (d :: items)).
    rewrite !List.filter_app, (Hcreate _ _ _ _ _ Hc), (Hattach _ _ _ _ _ _ _ Ha), IH.
    reflexivity.
Qed.

(** X15. Outside the dry run and through the service of the repository, the
    batch asks GitHub to create exactly one issue for every item, in the
    order of the items and whatever fails on the way: each with the title of
    its item, the body made of it and its category as label. *)
Theorem createNewIssues_one_creation_each (items : list Item.t) (w : W) :
  List.filter isIssuesCreate
    (requests (events (IssueService.createNewIssues (GitHub.service octokit this)
                         items defaults false w)))
  = List.map (fun issueData =>
                IssuesCreate (GitHubService.owner this) (GitHubService.repo this)
                  (Item.title issueData) (GitHubService.formatIssueBody issueData)
                  (labelsOf issueData)) items.
Proof.
  destruct items as [|issueData0 items0] eqn:Hitems; [reflexivity|].
  rewrite <- Hitems.
  destruct (createNewIssues_sequential (GitHub.service octokit this) defaults items w)
    as (w' & tr & issues & Hseq & Hrun); [subst; discriminate|].
  rewrite Hrun. unfold events; cbn [fst snd].
  unfold requests at 1. rewrite flat_map_framed by reflexivity.
  exact (sequential_service_creates _ _ _ _ _ Hseq).
Qed.
End ServiceBatch.

(** ** The run of the application (src/index.js) *)

Section Run.
Context {W : Type} (parser : Parser.t W) (octokit : Octokit.t W) (config : Config.t).

(** A run, by what the feed reader and the listing of the issues do. *)
Lemma run_cases (w : W) :
  match RSSService.fetchRSSItems parser (Config.rss_url config) w with
  | (w1, t1, Throws e) =>
      RSSToIssueApp.run parser octokit config w
      = (w1, preamble config ++ FetchRSSItems (Config.rss_url config) t1 (Throws e) :: crash e,
         Returns tt)
  | (w1, t1, Returns rssItems) =>
      match GitHubService.getExistingIssues octokit (RSSToIssueApp.githubService config)
              w1 with
      | (w2, t2, Throws e) =>
          RSSToIssueApp.run parser octokit config w
          = (w2,
             preamble config
             ++ FetchRSSItems (Config.rss_url config) t1 (Returns rssItems)
                :: GetExistingIssues t2 (Throws e) :: crash e,
             Returns tt)
      | (w2, t2, Returns existingIssues) =>
          exists t3 newIssues w4 t4 createdIssues,
            IssueService.findNewIssues rssItems existingIssues w2
            = (w2, t3, Returns newIssues)
            /\ IssueService.createNewIssues
                 (GitHub.service octokit (RSSToIssueApp.githubService config))
                 newIssues (Config.defaults config) (Config.dryRun config) w2
               = (w4, t4, Returns createdIssues)
            /\ RSSToIssueApp.run parser octokit config w
               = (w4,
                  preamble config
                  ++ [FetchRSSItems (Config.rss_url config) t1 (Returns rssItems);
                      GetExistingIssues t2 (Returns existingIssues);
                      FindNewIssues rssItems existingIssues t3 (Returns newIssues);
                      CreateNewIssues newIssues (Config.defaults config)
                        (Config.dryRun config) t4 (Returns createdIssues);
                      Log INFO (lit "Automation completed successfully") None;
                      Log INFO (lit "Summary:")
                        (Some (DSummary (length rssItems) (length existingIssues)
                                 (length newIssues) (length createdIssues)))],
                  Returns tt)
      end
  end.
Proof.
  unfold RSSToIssueApp.run, preamble, crash.
  unfold try_catch, bind, call, Logger.info, Logger.error, emit.
  destruct (RSSService.fetchRSSItems parser (Config.rss_url config) w)
    as [[w1 t1] [rssItems|e]]; [|reflexivity].
  destruct (GitHubService.getExistingIssues octokit (RSSToIssueApp.githubService config)
              w1) as [[w2 t2] [existingIssues|e]]; [|reflexivity].
  pose proof (findNewIssues_outcome rssItems existingIssues w2) as Hout.
  pose proof (findNewIssues_final rssItems existingIssues w2) as Hfin.
  destruct (IssueService.findNewIssues rssItems existingIssues w2)
    as [[w3 t3] r3]. unfold outcome, final in Hout, Hfin; simpl in Hout, Hfin.
  subst w3 r3.
  destruct (createNewIssues_events
              (GitHub.service octokit (RSSToIssueApp.githubService config))
              (Config.defaults config)
              (IssueService.notExisting (IssueService.existingTitles existingIssues)
                 rssItems)
              (Config.dryRun config) w2)
    as (w4 & t4 & createdIssues & Hrun & _).
  exists t3,
    (IssueService.notExisting (IssueService.existingTitles existingIssues) rssItems),
    w4, t4, createdIssues.
  split; [reflexivity|]. split; [exact Hrun|].
  rewrite Hrun. reflexivity.
Qed.
End Run.

Section RunFacts.
Context {W : Type} (parser : Parser.t W) (octokit : Octokit.t W) (config : Config.t).

Lemma fetchRSSItems_answers (url : value) (w : W) :
  exists t,
    requests t = [ParseURL url]
    /\ RSSService.fetchRSSItems parser url w
       = match Parser.parseURL parser url w with
         | (w', Returns entries) => (w', t, Returns (List.map RSSService.normalize entries))
         | (w', Throws e) =>
             (w', t, Throws (Error (lit "RSS fetch failed: " ++ message e)))
         end.
Proof.
  unfold RSSService.fetchRSSItems, Logger.info, Logger.error, try_catch, bind, send,
    emit, throw, ret.
  destruct (Parser.parseURL parser url w) as [w' [entries|e]];
    (eexists; split; [|reflexivity]; reflexivity).
Qed.

Lemma getExistingIssues_answers (this : GitHubService.t) (w : W) :
  exists t,
    requests t
    = [IssuesListForRepo (GitHubService.owner this) (GitHubService.repo this)
         (lit "all") 100]
    /\ GitHubService.getExistingIssues octokit this w
       = match Octokit.issues_listForRepo octokit (GitHubService.owner this)
                 (GitHubService.repo this) (lit "all") 100 w with
         | (w', Returns issues) => (w', t, Returns issues)
         | (w', Throws e) => (w', t, Throws (Error (lit "GitHub API error: " ++ message e)))
         end.
Proof.
  unfold GitHubService.getExistingIssues, Logger.info, Logger.error, try_catch, bind,
    send, emit, throw, ret.
  destruct (Octokit.issues_listForRepo octokit _ _ _ _ w) as [w' [issues|e]];
    (eexists; split; [|reflexivity]; reflexivity).
Qed.

Lemma findNewIssues_requests (rssItems : list Item.t) (existingIssues : list Issue.t)
    (w : W) :
  requests (events (IssueService.findNewIssues rssItems existingIssues w)) = [].
Proof. destruct existingIssues; reflexivity. Qed.

Lemma requests_preamble (tr : trace) : requests (preamble config ++ tr) = requests tr.
Proof. reflexivity. Qed.

Lemma run_dry_run_requests (w : W) :
  Config.dryRun config = true ->
  requests (events (RSSToIssueApp.run parser octokit config w))
  = [ParseURL (Config.rss_url config)]
  \/ requests (events (RSSToIssueApp.run parser octokit config w))
     = [ParseURL (Config.rss_url config);
        IssuesListForRepo (Config.github_owner config) (Config.github_repo config)
          (lit "all") 100].
Proof.
  intros Hdry.
  pose proof (run_cases parser octokit config w) as Hrun.
  destruct (fetchRSSItems_answers (Config.rss_url config) w) as (t1 & Hr1 & Hfetch).
  rewrite Hfetch in Hrun.
  destruct (Parser.parseURL parser (Config.rss_url config) w) as [w1 [entries|e]].
  - destruct (getExistingIssues_answers (RSSToIssueApp.githubService config) w1)
      as (t2 & Hr2 & Hlist).
    rewrite Hlist in Hrun.
    destruct (Octokit.issues_listForRepo octokit _ _ _ _ w1) as [w2 [issues|e]].
    + destruct Hrun as (t3 & newIssues & w4 & t4 & createdIssues & Hfind & Hcreate
                        & ->).
      right. unfold events; cbn [fst snd]. rewrite requests_preamble.
      unfold requests in *. cbn [flat_map requestsOf]. rewrite Hr1, Hr2.
      pose proof (findNewIssues_requests
                    (List.map RSSService.normalize entries) issues w2) as Hr3.
      rewrite Hfind in Hr3. unfold events, requests in Hr3; cbn [fst snd] in Hr3.
      rewrite Hr3.
      destruct (createNewIssues_events
                  (GitHub.service octokit (RSSToIssueApp.githubService config))
                  (Config.defaults config) newIssues (Config.dryRun config) w2)
        as (w4' & t4' & created' & Hrun' & _ & Hdry' & _).
      rewrite Hcreate in Hrun'. injection Hrun' as <- <- <-.
      destruct (Hdry' Hdry) as (_ & Hr4 & _). unfold requests in Hr4. rewrite Hr4.
      reflexivity.
    + rewrite Hrun. right. unfold events; cbn [fst snd]. rewrite requests_preamble.
      unfold requests in *. cbn [flat_map requestsOf crash]. rewrite Hr1, Hr2.
      reflexivity.
  - rewrite Hrun. left. unfold events; cbn [fst snd]. rewrite requests_preamble.
    unfold requests in *. cbn [flat_map requestsOf crash]. rewrite Hr1.
    reflexivity.
Qed.

(** X16. In the dry run a run of the application changes nothing on GitHub:
    whatever the feed and the repository hold, it sends the parsing of the
    feed and, if that returned, the listing of the issues, and no other
    request. *)
Theorem run_dry_run_reads_only (w : W) :
  Config.dryRun config = true ->
  List.filter isMutation (requests (events (RSSToIssueApp.run parser octokit config w)))
  = []
  /\ (requests (events (RSSToIssueApp.run parser octokit config w))
      = [ParseURL (Config.rss_url config)]
      \/ requests (events (RSSToIssueApp.run parser octokit config w))
         = [ParseURL (Config.rss_url config);
            IssuesListForRepo (Config.github_owner config) (Config.github_repo config)
              (lit "all") 100]).
Proof.
  intros Hdry. pose proof (run_dry_run_requests w Hdry) as Hreq.
  split; [|exact Hreq]. destruct Hreq as [-> | ->]; reflexivity.
Qed.

(** X17. A run never throws.  It exits with status 1, after logging the
    failure, exactly when the feed cannot be read or the issues cannot be
    listed, and then nothing was sent after the request that failed; once
    both are read, whatever happens to the items, it does not exit. *)
Theorem run_exits_on_reader_failure (w : W) :
  outcome (RSSToIssueApp.run parser octokit config w) = Returns tt
  /\ match Parser.parseURL parser (Config.rss_url config) w with
     | (w1, Throws e) =>
         final (RSSToIssueApp.run parser octokit config w) = w1
         /\ requests (events (RSSToIssueApp.run parser octokit config w))
            = [ParseURL (Config.rss_url config)]
         /\ exists before,
             events (RSSToIssueApp.run parser octokit config w)
             = before ++ crash (Error (lit "RSS fetch failed: " ++ message e))
     | (w1, Returns entries) =>
         match Octokit.issues_listForRepo octokit (Config.github_owner config)
                 (Config.github_repo config) (lit "all") 100 w1 with
         | (w2, Throws e) =>
             final (RSSToIssueApp.run parser octokit config w) = w2
             /\ requests (events (RSSToIssueApp.run parser octokit config w))
                = [ParseURL (Config.rss_url config);
                   IssuesListForRepo (Config.github_owner config)
                     (Config.github_repo config) (lit "all") 100]
             /\ exists before,
                 events (RSSToIssueApp.run parser octokit config w)
                 = before ++ crash (Error (lit "GitHub API error: " ++ message e))
         | (w2, Returns _) =>
             forall code, ~ In (Exit code) (events (RSSToIssueApp.run parser octokit config w))
         end
     end.
Proof.
  pose proof (run_cases parser octokit config w) as Hrun.
  destruct (fetchRSSItems_answers (Config.rss_url config) w) as (t1 & Hr1 & Hfetch).
  rewrite Hfetch in Hrun.
  destruct (Parser.parseURL parser (Config.rss_url config) w) as [w1 [entries|e]].
  - destruct (getExistingIssues_answers (RSSToIssueApp.githubService config) w1)
      as (t2 & Hr2 & Hlist).
    rewrite Hlist in Hrun. cbn [RSSToIssueApp.githubService GitHubService.owner
                                 GitHubService.repo] in *.
    destruct (Octokit.issues_listForRepo octokit _ _ _ _ w1) as [w2 [issues|e]].
    + destruct Hrun as (t3 & newIssues & w4 & t4 & createdIssues & Hfind & Hcreate & ->).
      split; [reflexivity|]. unfold events; cbn [fst snd].
      intros code [H|[H|H]]; [discriminate|discriminate|].
      repeat (destruct H as [H|H]; [discriminate|]). exact H.
    + rewrite Hrun. split; [reflexivity|]. split; [reflexivity|]. split.
      * unfold events; cbn [fst snd]. rewrite requests_preamble.
        unfold requests in *. cbn [flat_map requestsOf crash]. rewrite Hr1, Hr2.
        reflexivity.
      * unfold events; cbn [fst snd]. eexists (preamble config ++ [_; _]).
        rewrite <- app_assoc. reflexivity.
  - rewrite Hrun. split; [reflexivity|]. split; [reflexivity|]. split.
    + unfold events; cbn [fst snd]. rewrite requests_preamble.
      unfold requests in *. cbn [flat_map requestsOf crash]. rewrite Hr1. reflexivity.
    + unfold events; cbn [fst snd]. eexists (preamble config ++ [_]).
      rewrite <- app_assoc. reflexivity.
Qed.


End RunFacts.

Lemma run_dry_run_reads_only_witness :
  List.filter isMutation
    (requests (events (RSSToIssueApp.run Mock.parser Mock.octokit Fixture.config tt)))
  = []
  /\ (requests (events (RSSToIssueApp.run Mock.parser Mock.octokit Fixture.config tt))
      = [ParseURL (Config.rss_url Fixture.config)]
      \/ requests (events (RSSToIssueApp.run Mock.parser Mock.octokit Fixture.config tt))
         = [ParseURL (Config.rss_url Fixture.config);
            IssuesListForRepo (Config.github_owner Fixture.config)
              (Config.github_repo Fixture.config) (lit "all") 100]).
Proof.
  apply (run_dry_run_reads_only Mock.parser Mock.octokit Fixture.config tt). reflexivity.
Defined.

(** Outside the dry run, on a board that rejects the addition: the issue is
    created and counted, and the run does not exit. *)
Example run_with_failing_board :
  requests (events (RSSToIssueApp.run Mock.parser Failing.octokit Failing.config tt))
  = [ParseURL (Str (lit "https://example.com/rss.xml"));
     IssuesListForRepo (Str (lit "test-owner")) (Str (lit "test-repo")) (lit "all") 100;
     IssuesCreate (Str (lit "test-owner")) (Str (lit "test-repo")) (lit "Test Issue")
       (GitHubService.formatIssueBody
          {| Item.title := lit "Test Issue"; Item.category := lit "Bug";
             Item.link := lit "https://example.com/issue";
             Item.description := lit "Test description";
             Item.guid := Str (lit "https://example.com/issue");
             Item.pubDate := Undefined |})
       [lit "Bug"];
     GraphqlProjectV2 (Str (lit "test-owner")) (Some 1);
     IssuesGet (Str (lit "test-owner")) (Str (lit "test-repo")) 2;
     GraphqlAddProjectV2ItemById (lit "PVT_1") (lit "")]
  /\ last (events (RSSToIssueApp.run Mock.parser Failing.octokit Failing.config tt))
     = Some (Log INFO (lit "Summary:") (Some (DSummary 1 1 1 1))).
Proof. split; reflexivity. Qed.

Lemma addIssueToProject_applies_updates_witness :
  exists before,
    events (GitHubService.addIssueToProject Mock.octokit Mock.service 7
              (Str (lit "Todo")) (Str (lit "v1.0")) tt)
    = before
      ++ [UpdateProjectItemStatus (lit "PVT_1") (lit "PVTI_1") (Str (lit "Todo"))
            [Log INFO (lit "Updating project item status to: Todo") None] (Returns tt)]
      ++ [UpdateProjectItemMilestone (lit "PVT_1") (lit "PVTI_1") (Str (lit "v1.0"))
            [Log INFO (lit "Updating project item milestone to: v1.0") None]
            (Returns tt)]
      ++ [Log INFO (lit "Successfully added issue #7 to project board") None]
    /\ statusUpdates before = [] /\ milestoneUpdates before = [].
Proof.
  exact (addIssueToProject_applies_updates Mock.octokit Mock.service 7
           (Str (lit "Todo")) (Str (lit "v1.0")) tt).
Defined.


(** ** More on the configuration *)

Lemma missing_none (env : gmap jsstring jsstring) (key : jsstring) :
  Config.missing env = [] -> In key Config.required ->
  truthy (Config.getenv env key) = true.
Proof.
  intros Hnone Hreq. destruct (truthy (Config.getenv env key)) eqn:Ht; [reflexivity|].
  assert (Hin : In key (Config.missing env)).
  { unfold Config.missing. apply List.filter_In. split; [exact Hreq|]. now rewrite Ht. }
  rewrite Hnone in Hin. destruct Hin.
Qed.

Section MoreConfig.
Context {S : Type} (parseInt : value -> Z -> option Z).
Context (env : gmap jsstring jsstring) (argv : list jsstring).

(** X19. A configuration that is constructed has a truthy token, owner,
    repository and feed address, taken from the environment as they are; its
    project number is what [parseInt] makes of [PROJECT_NUMBER] in base 10;
    its default status is never falsy, ["Todo"] standing for a missing one;
    its default milestone is [null] or a non-empty string; and its dry run
    is on exactly when [DRY_RUN] is ['true'] or [--dry-run] is among the
    arguments.  The construction logs nothing and changes nothing. *)
Theorem Config_new_fields (s s' : S) (tr : trace) (config : Config.t) :
  Config.new parseInt env argv s = (s', tr, Returns config) ->
  s' = s /\ tr = []
  /\ Config.github_token config = Config.getenv env (lit "GITHUB_TOKEN")
  /\ Config.github_owner config = Config.getenv env (lit "GITHUB_OWNER")
  /\ Config.github_repo config = Config.getenv env (lit "GITHUB_REPO")
  /\ Config.rss_url config = Config.getenv env (lit "MANTIS_RSS_URL")
  /\ truthy (Config.github_token config) = true
  /\ truthy (Config.github_owner config) = true
  /\ truthy (Config.github_repo config) = true
  /\ truthy (Config.rss_url config) = true
  /\ Config.github_projectNumber config
     = parseInt (Config.getenv env (lit "PROJECT_NUMBER")) 10
  /\ truthy (Defaults.status (Config.defaults config)) = true
  /\ (truthy (Config.getenv env (lit "DEFAULT_STATUS")) = false ->
      Defaults.status (Config.defaults config) = Str (lit "Todo"))
  /\ (Defaults.milestone (Config.defaults config) = Null
      \/ truthy (Defaults.milestone (Config.defaults config)) = true)
  /\ (Config.dryRun config = true
      <-> env !! lit "DRY_RUN" = Some (lit "true") \/ In (lit "--dry-run") argv).
Proof.
  unfold Config.new, bind. rewrite validateRequiredEnvVars_cases.
  destruct (Config.missing env) as [|key l] eqn:Hm; [|discriminate].
  intros [= <- <- <-]. cbn [Config.github_token Config.github_owner Config.github_repo
                            Config.rss_url Config.github_projectNumber Config.defaults
                            Config.dryRun Defaults.status Defaults.milestone].
  repeat (split; [reflexivity|]).
  split; [apply missing_none; [exact Hm|now left]|].
  split; [apply missing_none; [exact Hm|right; now left]|].
  split; [apply missing_none; [exact Hm|right; right; now left]|].
  split; [apply missing_none; [exact Hm|right; right; right; right; now left]|].
  split; [reflexivity|].
  split; [now destruct (Config.getenv env (lit "DEFAULT_STATUS")) as [| |[|c t]]|].
  split; [now destruct (Config.getenv env (lit "DEFAULT_STATUS")) as [| |[|c t]]|].
  split.
  - unfold or_. destruct (truthy (Config.getenv env (lit "DEFAULT_MILESTONE"))) eqn:Ht;
      [now right|now left].
  - rewrite orb_true_iff, !bool_decide_eq_true. unfold Config.getenv.
    rewrite <- list_elem_of_In.
    destruct (env !! lit "DRY_RUN") as [v|]; split; intros [H|H]; auto;
      try discriminate; left; congruence.
Qed.
End MoreConfig.

Lemma Config_new_fields_witness :
  Config.dryRun Fixture.config = true
  <-> Mock.env !! lit "DRY_RUN" = Some (lit "true") \/ In (lit "--dry-run") [].
Proof.
  refine (proj2 (proj2 (proj2 (proj2 (proj2 (proj2 (proj2 (proj2 (proj2 (proj2 (proj2
            (proj2 (proj2 (proj2
              (Config_new_fields Mock.parseInt Mock.env [] tt tt [] Fixture.config _)
            )))))))))))))).
  vm_compute. reflexivity.
Defined.

(** ** The script as a whole *)

Section Script.
Context {W : Type} (parser : Parser.t W) (octokit : Octokit.t W).
Context (parseInt : value -> Z -> option Z).
Context (env : gmap jsstring jsstring) (argv : list jsstring).

(** The script is the construction of the configuration, then the run. *)
Lemma main_cases (w : W) :
  match Config.missing env with
  | [] =>
      exists config,
        Config.new parseInt env argv w = (w, [], Returns config)
        /\ RSSToIssueApp.main parser octokit parseInt env argv w
           = RSSToIssueApp.run parser octokit config w
  | _ :: _ =>
      RSSToIssueApp.main parser octokit parseInt env argv w
      = (w, [], Throws (Error (lit "Missing required environment variables: "
                                 ++ join (lit ", ") (Config.missing env))))
  end.
Proof.
  unfold RSSToIssueApp.main, Config.new, bind. cbv beta.
  rewrite validateRequiredEnvVars_cases.
  destruct (Config.missing env) as [|key l]; [|reflexivity].
  eexists. split; [reflexivity|]. unfold ret. cbv beta iota.
  match goal with
  | |- context [RSSToIssueApp.run ?p ?o ?c ?x] =>
      now destruct (RSSToIssueApp.run p o c x) as [[s2 t2] r]
  end.
Qed.

(** X20. With [DRY_RUN] set to ['true'] or [--dry-run] among the arguments,
    the script sends no request that changes anything on GitHub, whatever
    the rest of the environment, the feed and the repository are. *)
Theorem main_dry_run_reads_only (w : W) :
  env !! lit "DRY_RUN" = Some (lit "true") \/ In (lit "--dry-run") argv ->
  List.filter isMutation
    (requests (events (RSSToIssueApp.main parser octokit parseInt env argv w)))
  = [].
Proof.
  intros Hflag. pose proof (main_cases w) as Hmain.
  destruct (Config.missing env) as [|key l]; [|now rewrite Hmain].
  destruct Hmain as (config & Hnew & ->).
  assert (Hdry : Config.dryRun config = true).
  { unfold Config.new, bind in Hnew.
    destruct (Config.validateRequiredEnvVars env w) as [[s1 t1] [[]|e]];
      [|discriminate].
    injection Hnew as _ _ <-. cbn [Config.dryRun].
    apply orb_true_iff. rewrite !bool_decide_eq_true. unfold Config.getenv.
    destruct Hflag as [-> | Hin]; [now left|right]. now apply list_elem_of_In. }
  destruct (run_dry_run_requests parser octokit config w Hdry) as [-> | ->];
    reflexivity.
Qed.

(** X21. The only error that the script lets out is that of the
    configuration: when a required variable is missing it throws before
    doing anything, and when none is missing it returns whatever happens
    later, failures being logged and turned into the exit status. *)
Theorem main_throws_only_configuration (w : W) :
  match Config.missing env with
  | [] => outcome (RSSToIssueApp.main parser octokit parseInt env argv w) = Returns tt
  | _ :: _ =>
      RSSToIssueApp.main parser octokit parseInt env argv w
      = (w, [], Throws (Error (lit "Missing required environment variables: "
                                 ++ join (lit ", ") (Config.missing env))))
  end.
Proof.
  pose proof (main_cases w) as Hmain.
  destruct (Config.missing env) as [|key l]; [|exact Hmain].
  destruct Hmain as (config & _ & ->). apply run_never_throws.
Qed.
End Script.

Lemma main_dry_run_reads_only_witness :
  List.filter isMutation
    (requests (events (RSSToIssueApp.main Mock.parser Failing.octokit Mock.parseInt
                         Mock.env [] tt)))
  = [].
Proof.
  apply (main_dry_run_reads_only Mock.parser Failing.octokit Mock.parseInt Mock.env [] tt).
  left. reflexivity.
Defined.

Lemma run_exits_on_reader_failure_witness :
  final (RSSToIssueApp.run Failing.parser Mock.octokit Fixture.config tt) = tt
  /\ requests (events (RSSToIssueApp.run Failing.parser Mock.octokit Fixture.config tt))
     = [ParseURL (Config.rss_url Fixture.config)]
  /\ exists before,
      events (RSSToIssueApp.run Failing.parser Mock.octokit Fixture.config tt)
      = before ++ crash (Error (lit "RSS fetch failed: " ++ lit "Status code 404")).
Proof.
  exact (proj2 (run_exits_on_reader_failure Failing.parser Mock.octokit Fixture.config tt)).
Defined.
